(** * Burrow: the Sarama configuration helpers

    A shallow embedding of [core/internal/helpers/sarama.go]: the legacy
    Kafka version table, [parseKafkaVersion] and
    [GetSaramaConfigFromClientProfile], together with the properties of the
    version resolver and of the profile configuration builder.

    The Go code panics on every configuration error; a panic is modelled as
    the [Panic] outcome carrying the panic message. The libraries the code
    calls (viper, sarama, os, crypto/tls, crypto/x509) are not part of the
    repository: viper's registry is modelled as a two-layer key/value store,
    the remaining library calls are parameters of a section. *)

From Stdlib Require Import ZArith Bool Ascii.
From stdpp Require Import gmap strings option pretty.

Local Open Scope Z_scope.

(* [simpl] computes the concatenation of keys. *)
Local Arguments String.append !_ _ / : simpl nomatch.

(** ** Outcomes: a value or a panic *)

Inductive outcome (A : Type) : Type :=
  | Ok (a : A)
  | Panic (msg : string).
Arguments Ok {A} a.
Arguments Panic {A} msg.

Definition bind {A B : Type} (x : outcome A) (k : A → outcome B) : outcome B :=
  match x with
  | Ok a => k a
  | Panic msg => Panic msg
  end.

Global Instance outcome_bind : MBind outcome := λ A B k x, bind x k.

Definition succeeds {A : Type} (x : outcome A) : bool :=
  match x with Ok _ => true | Panic _ => false end.

Definition panics {A : Type} (x : outcome A) : Prop := ∃ msg, x = Panic msg.

(** ** sarama.KafkaVersion

    [sarama.KafkaVersion] is a struct holding [version [4]uint]; the four
    components are major, minor, veryMinor and patch. The constants are named
    after their components. *)

Record KafkaVersion : Type := newKafkaVersion {
  major : N; minor : N; veryMinor : N; patch : N
}.

Global Instance KafkaVersion_eq_dec : EqDecision KafkaVersion.
Proof. solve_decision. Defined.

Definition V0_8_2_0 := newKafkaVersion 0 8 2 0.
Definition V0_8_2_1 := newKafkaVersion 0 8 2 1.
Definition V0_8_2_2 := newKafkaVersion 0 8 2 2.
Definition V0_9_0_0 := newKafkaVersion 0 9 0 0.
Definition V0_10_0_0 := newKafkaVersion 0 10 0 0.
Definition V0_10_1_0 := newKafkaVersion 0 10 1 0.
Definition V0_10_2_0 := newKafkaVersion 0 10 2 0.
Definition V0_11_0_0 := newKafkaVersion 0 11 0 0.

(** [KafkaVersion.IsAtLeast] compares the four components in order. *)
Definition IsAtLeast (v other : KafkaVersion) : bool :=
  if negb (major v =? major other)%N then (major other <? major v)%N
  else if negb (minor v =? minor other)%N then (minor other <? minor v)%N
  else if negb (veryMinor v =? veryMinor other)%N
       then (veryMinor other <? veryMinor v)%N
  else (patch other <=? patch v)%N.

(** Two versions are releases of the same minor line. *)
Definition same_minor (v w : KafkaVersion) : bool :=
  (major v =? major w)%N && (minor v =? minor w)%N.

(** ** The legacy fallback table *)

Definition legacyKafkaVersionFallback : gmap string KafkaVersion :=
  list_to_map [
    ("", V0_10_2_0);
    ("0.8.0", V0_8_2_0);
    ("0.8.1", V0_8_2_1);
    ("0.8.2", V0_8_2_2);
    ("0.8", V0_8_2_0);
    ("0.9.0", V0_9_0_0);
    ("0.9", V0_9_0_0);
    ("0.10.0", V0_10_0_0);
    ("0.10.1", V0_10_1_0);
    ("0.10.2", V0_10_2_0);
    ("0.10", V0_10_0_0);
    ("0.11.0", V0_11_0_0);
    ("0.11", V0_11_0_0)
  ].

(** The versions the table knows about. *)
Definition known_versions : list KafkaVersion :=
  (map_to_list legacyKafkaVersionFallback).*2.

(** [v] is the latest release of its minor line among the versions the table
    knows about. *)
Definition latest_known_patch (v : KafkaVersion) : bool :=
  forallb (λ w, implb (same_minor v w) (IsAtLeast v w)) known_versions.

(** The specifiers that name a minor line only. *)
Definition minor_only : list string := ["0.8"; "0.9"; "0.10"; "0.11"].

(** ** parseKafkaVersion *)

Section Resolver.
(** [sarama.ParseKafkaVersion]: the strict parser of the client library,
    returning the version, or the error of a string it rejects. *)
Variable ParseKafkaVersion : string → KafkaVersion + string.

(** The strict parser rejects the string. *)
Definition rejects (s : string) : Prop :=
  ∃ err, ParseKafkaVersion s = inr err.

Definition parseKafkaVersion (kafkaVersion : string) : outcome KafkaVersion :=
  match ParseKafkaVersion kafkaVersion with
  | inl version => Ok version
  | inr _ =>
      match legacyKafkaVersionFallback !! kafkaVersion with
      | None => Panic ("Unknown Kafka Version: " +:+ kafkaVersion)
      | Some version1 => Ok version1
      end
  end.
End Resolver.

(** ** The configuration registry (viper)

    The registry is process-wide state. It is modelled by its two layers
    that matter here: the values loaded from the configuration file and the
    defaults registered with [SetDefault]; a lookup consults the file first.
    Both layers map the full dotted path of a leaf to its value. A path that
    is a proper dotted prefix of a stored leaf denotes a table, which counts
    as set but has no scalar value. Keys are taken in viper's normal form
    (its case folding is not modelled). *)

Module viper.

Inductive value : Type :=
  | VString (s : string)
  | VBool (b : bool)
  | VInt (n : Z).

Global Instance value_eq_dec : EqDecision value.
Proof. solve_decision. Defined.

(** The conversions of [spf13/cast] that [GetString], [GetBool] and
    [GetInt] apply to a value that was found. *)
Class Cast : Type := {
  ToString : value → string;
  ToBool : value → bool;
  ToInt : value → Z
}.

Record t : Type := mk {
  config : gmap string value;
  defaults : gmap string value
}.

Definition Get (v : t) (key : string) : option value :=
  match config v !! key with
  | Some x => Some x
  | None => defaults v !! key
  end.

(** Some leaf is stored strictly below [key]. *)
Definition below (key : string) (m : gmap string value) : Prop :=
  map_Exists (λ k _, String.prefix (key +:+ ".") k = true) m.

Definition IsSet (v : t) (key : string) : bool :=
  bool_decide (is_Some (Get v key))
  || bool_decide (below key (config v))
  || bool_decide (below key (defaults v)).

Definition GetString `{Cast} (v : t) (key : string) : string :=
  match Get v key with Some x => ToString x | None => "" end.

Definition GetBool `{Cast} (v : t) (key : string) : bool :=
  match Get v key with Some x => ToBool x | None => false end.

Definition GetInt `{Cast} (v : t) (key : string) : Z :=
  match Get v key with Some x => ToInt x | None => 0 end.

Definition SetDefault (v : t) (key : string) (d : string) : t :=
  mk (config v) (<[key := VString d]> (defaults v)).

End viper.

(** ** The client configuration (sarama.Config)

    Only the fields the builder assigns or reads are kept. Pointers to
    freshly allocated structs ([*tls.Config], the token provider) are
    modelled by an [option] of the struct, [None] being [nil]. *)

Inductive HashGenerator : Type := SHA256 | SHA512.

Record XDGSCRAMClient : Type := { HashGeneratorFcn : HashGenerator }.

Record iamTokenProvider : Type := {
  region : string;
  roleArn : string;
  profile : string
}.

(** The [sarama.SASLMechanism] constants. *)
Definition SASLTypeOAuth : string := "OAUTHBEARER".
Definition SASLTypeSCRAMSHA256 : string := "SCRAM-SHA-256".
Definition SASLTypeSCRAMSHA512 : string := "SCRAM-SHA-512".

(** [time.Second], in nanoseconds, and the wrap-around of [int64]. *)
Definition Second : Z := 1000000000.
Definition wrap64 (z : Z) : Z := (z + 2 ^ 63) mod 2 ^ 64 - 2 ^ 63.

Section Config.
(** [*x509.CertPool] and [tls.Certificate] are opaque here. *)
Context {CertPool Certificate : Type}.

Record tls_Config : Type := {
  RootCAs : option CertPool;
  Certificates : list Certificate;
  InsecureSkipVerify : bool
}.

Record TLSConfig : Type := {
  TLS_Enable : bool;
  TLS_Config : option tls_Config
}.

Record SASLConfig : Type := {
  SASL_Enable : bool;
  Mechanism : string;
  SCRAMClientGeneratorFunc : option XDGSCRAMClient;
  Handshake : bool;
  User : string;
  Password : string;
  TokenProvider : option iamTokenProvider
}.

Record NetConfig : Type := {
  TLS : TLSConfig;
  SASL : SASLConfig;
  DialTimeout : Z;
  ReadTimeout : Z
}.

Record Config : Type := {
  Net : NetConfig;
  ClientID : string;
  Version : KafkaVersion;
  Consumer_Return_Errors : bool
}.

(** Assignments to the fields of a configuration. *)
Definition upd_Net (f : NetConfig → NetConfig) (c : Config) : Config :=
  {| Net := f (Net c); ClientID := ClientID c; Version := Version c;
     Consumer_Return_Errors := Consumer_Return_Errors c |}.
Definition upd_TLS (f : TLSConfig → TLSConfig) (n : NetConfig) : NetConfig :=
  {| TLS := f (TLS n); SASL := SASL n;
     DialTimeout := DialTimeout n; ReadTimeout := ReadTimeout n |}.
Definition upd_SASL (f : SASLConfig → SASLConfig) (n : NetConfig) : NetConfig :=
  {| TLS := TLS n; SASL := f (SASL n);
     DialTimeout := DialTimeout n; ReadTimeout := ReadTimeout n |}.

Definition set_ClientID (x : string) (c : Config) : Config :=
  {| Net := Net c; ClientID := x; Version := Version c;
     Consumer_Return_Errors := Consumer_Return_Errors c |}.
Definition set_Version (x : KafkaVersion) (c : Config) : Config :=
  {| Net := Net c; ClientID := ClientID c; Version := x;
     Consumer_Return_Errors := Consumer_Return_Errors c |}.
Definition set_Consumer_Return_Errors (x : bool) (c : Config) : Config :=
  {| Net := Net c; ClientID := ClientID c; Version := Version c;
     Consumer_Return_Errors := x |}.
Definition set_DialTimeout (x : Z) : Config → Config :=
  upd_Net (λ n, {| TLS := TLS n; SASL := SASL n;
                   DialTimeout := x; ReadTimeout := ReadTimeout n |}).
Definition set_ReadTimeout (x : Z) : Config → Config :=
  upd_Net (λ n, {| TLS := TLS n; SASL := SASL n;
                   DialTimeout := DialTimeout n; ReadTimeout := x |}).

Definition set_TLS_Enable (x : bool) : Config → Config :=
  upd_Net (upd_TLS (λ t, {| TLS_Enable := x; TLS_Config := TLS_Config t |})).
Definition set_TLS_Config (x : option tls_Config) : Config → Config :=
  upd_Net (upd_TLS (λ t, {| TLS_Enable := TLS_Enable t; TLS_Config := x |})).
(** Assignments through the [Net.TLS.Config] pointer. *)
Definition set_TLS_Config_Certificates (x : list Certificate)
    : Config → Config :=
  upd_Net (upd_TLS (λ t,
    {| TLS_Enable := TLS_Enable t;
       TLS_Config :=
         (λ k, {| RootCAs := RootCAs k; Certificates := x;
                  InsecureSkipVerify := InsecureSkipVerify k |})
         <$> TLS_Config t |})).
Definition set_TLS_Config_InsecureSkipVerify (x : bool) : Config → Config :=
  upd_Net (upd_TLS (λ t,
    {| TLS_Enable := TLS_Enable t;
       TLS_Config :=
         (λ k, {| RootCAs := RootCAs k; Certificates := Certificates k;
                  InsecureSkipVerify := x |})
         <$> TLS_Config t |})).

Definition set_SASL_Enable (x : bool) : Config → Config :=
  upd_Net (upd_SASL (λ s,
    {| SASL_Enable := x; Mechanism := Mechanism s;
       SCRAMClientGeneratorFunc := SCRAMClientGeneratorFunc s;
       Handshake := Handshake s; User := User s; Password := Password s;
       TokenProvider := TokenProvider s |})).
Definition set_SASL_Mechanism (x : string) : Config → Config :=
  upd_Net (upd_SASL (λ s,
    {| SASL_Enable := SASL_Enable s; Mechanism := x;
       SCRAMClientGeneratorFunc := SCRAMClientGeneratorFunc s;
       Handshake := Handshake s; User := User s; Password := Password s;
       TokenProvider := TokenProvider s |})).
Definition set_SASL_SCRAMClientGeneratorFunc (x : option XDGSCRAMClient)
    : Config → Config :=
  upd_Net (upd_SASL (λ s,
    {| SASL_Enable := SASL_Enable s; Mechanism := Mechanism s;
       SCRAMClientGeneratorFunc := x;
       Handshake := Handshake s; User := User s; Password := Password s;
       TokenProvider := TokenProvider s |})).
Definition set_SASL_Handshake (x : bool) : Config → Config :=
  upd_Net (upd_SASL (λ s,
    {| SASL_Enable := SASL_Enable s; Mechanism := Mechanism s;
       SCRAMClientGeneratorFunc := SCRAMClientGeneratorFunc s;
       Handshake := x; User := User s; Password := Password s;
       TokenProvider := TokenProvider s |})).
Definition set_SASL_User (x : string) : Config → Config :=
  upd_Net (upd_SASL (λ s,
    {| SASL_Enable := SASL_Enable s; Mechanism := Mechanism s;
       SCRAMClientGeneratorFunc := SCRAMClientGeneratorFunc s;
       Handshake := Handshake s; User := x; Password := Password s;
       TokenProvider := TokenProvider s |})).
Definition set_SASL_Password (x : string) : Config → Config :=
  upd_Net (upd_SASL (λ s,
    {| SASL_Enable := SASL_Enable s; Mechanism := Mechanism s;
       SCRAMClientGeneratorFunc := SCRAMClientGeneratorFunc s;
       Handshake := Handshake s; User := User s; Password := x;
       TokenProvider := TokenProvider s |})).
Definition set_SASL_TokenProvider (x : option iamTokenProvider)
    : Config → Config :=
  upd_Net (upd_SASL (λ s,
    {| SASL_Enable := SASL_Enable s; Mechanism := Mechanism s;
       SCRAMClientGeneratorFunc := SCRAMClientGeneratorFunc s;
       Handshake := Handshake s; User := User s; Password := Password s;
       TokenProvider := x |})).
End Config.

Arguments tls_Config : clear implicits.
Arguments TLSConfig : clear implicits.
Arguments NetConfig : clear implicits.
Arguments Config : clear implicits.

(** ** GetSaramaConfigFromClientProfile *)

Section Builder.
Context `{viper.Cast} {CertPool Certificate : Type}.

(** The library calls of the builder. *)
Variable ParseKafkaVersion : string → KafkaVersion + string.
(** [sarama.NewConfig()]: the fresh configuration with the library's
    defaults. *)
Variable NewConfig : Config CertPool Certificate.
(** [os.ReadFile]: the contents of the file, or the error text. *)
Variable ReadFile : string → string + string.
(** [x509.NewCertPool()] and the pool's [AppendCertsFromPEM], whose
    boolean result the builder drops. *)
Variable NewCertPool : CertPool.
Variable AppendCertsFromPEM : CertPool → string → CertPool.
(** [tls.LoadX509KeyPair]: the certificate, or the error text. *)
Variable LoadX509KeyPair : string → string → Certificate + string.

Local Abbreviation Config := (Config CertPool Certificate).

(** The [// Configure TLS if enabled] block. *)
Definition configureTLS (v : viper.t) (configRoot : string)
    (saramaConfig : Config) : outcome Config :=
  if viper.IsSet v (configRoot +:+ ".tls") then
    let tlsName := viper.GetString v (configRoot +:+ ".tls") in
    let saramaConfig := set_TLS_Enable true saramaConfig in
    let certFile := viper.GetString v ("tls." +:+ tlsName +:+ ".certfile") in
    let keyFile := viper.GetString v ("tls." +:+ tlsName +:+ ".keyfile") in
    let caFile := viper.GetString v ("tls." +:+ tlsName +:+ ".cafile") in
    saramaConfig ←
      (if String.eqb caFile "" then
         Ok (set_TLS_Config
               (Some {| RootCAs := None; Certificates := [];
                        InsecureSkipVerify := false |}) saramaConfig)
       else
         match ReadFile caFile with
         | inr err => Panic ("cannot read TLS CA file: " +:+ err)
         | inl caCert =>
             let caCertPool := AppendCertsFromPEM NewCertPool caCert in
             let saramaConfig :=
               set_TLS_Config
                 (Some {| RootCAs := Some caCertPool; Certificates := [];
                          InsecureSkipVerify := false |}) saramaConfig in
             if negb (String.eqb certFile "") && negb (String.eqb keyFile "")
             then
               match LoadX509KeyPair certFile keyFile with
               | inr err =>
                   Panic ("cannot read TLS certificate or key file: " +:+ err)
               | inl cert =>
                   Ok (set_TLS_Config_Certificates [cert] saramaConfig)
               end
             else Ok saramaConfig
         end);
    Ok (set_TLS_Config_InsecureSkipVerify
          (viper.GetBool v ("tls." +:+ tlsName +:+ ".noverify")) saramaConfig)
  else Ok saramaConfig.

(** The [// Configure SASL if enabled] block. *)
Definition configureSASL (v : viper.t) (configRoot : string)
    (saramaConfig : Config) : Config :=
  if viper.IsSet v (configRoot +:+ ".sasl") then
    let saslName := viper.GetString v (configRoot +:+ ".sasl") in
    let saramaConfig := set_SASL_Enable true saramaConfig in
    let mechanism := viper.GetString v ("sasl." +:+ saslName +:+ ".mechanism") in
    let saramaConfig :=
      if String.eqb mechanism "SCRAM-SHA-256" then
        set_SASL_SCRAMClientGeneratorFunc
          (Some {| HashGeneratorFcn := SHA256 |})
          (set_SASL_Mechanism SASLTypeSCRAMSHA256 saramaConfig)
      else if String.eqb mechanism "SCRAM-SHA-512" then
        set_SASL_SCRAMClientGeneratorFunc
          (Some {| HashGeneratorFcn := SHA512 |})
          (set_SASL_Mechanism SASLTypeSCRAMSHA512 saramaConfig)
      else saramaConfig in
    let saramaConfig :=
      set_SASL_Handshake
        (viper.GetBool v ("sasl." +:+ saslName +:+ ".handshake-first"))
        saramaConfig in
    let saramaConfig :=
      set_SASL_User
        (viper.GetString v ("sasl." +:+ saslName +:+ ".username"))
        saramaConfig in
    set_SASL_Password
      (viper.GetString v ("sasl." +:+ saslName +:+ ".password")) saramaConfig
  else saramaConfig.

(** The [iam] block. *)
Definition configureIAM (v : viper.t) (profileName configRoot : string)
    (saramaConfig : Config) : outcome Config :=
  let iamName := viper.GetString v (configRoot +:+ ".iam") in
  if negb (String.eqb iamName "") then
    let iamRoot := "iam." +:+ iamName in
    let region := viper.GetString v (iamRoot +:+ ".region") in
    if String.eqb region "" then
      Panic ("iam." +:+ iamName +:+ ": region is required")
    else if negb (TLS_Enable (TLS (Net saramaConfig))) then
      Panic ("client-profile " +:+ profileName +:+ " uses iam." +:+ iamName
             +:+ " but has no tls profile")
    else
      let saramaConfig := set_SASL_Enable true saramaConfig in
      let saramaConfig := set_SASL_Handshake true saramaConfig in
      let saramaConfig := set_SASL_Mechanism SASLTypeOAuth saramaConfig in
      Ok (set_SASL_TokenProvider
            (Some {| region := region;
                     roleArn := viper.GetString v (iamRoot +:+ ".role-arn");
                     profile := viper.GetString v (iamRoot +:+ ".profile") |})
            saramaConfig)
  else Ok saramaConfig.

(** The two timeout blocks. *)
Definition configureTimeouts (v : viper.t) (configRoot : string)
    (saramaConfig : Config) : Config :=
  let saramaConfig :=
    if viper.IsSet v (configRoot +:+ ".dial-timeout") then
      set_DialTimeout
        (wrap64 (viper.GetInt v (configRoot +:+ ".dial-timeout") * Second))
        saramaConfig
    else saramaConfig in
  if viper.IsSet v (configRoot +:+ ".read-timeout") then
    set_ReadTimeout
      (wrap64 (viper.GetInt v (configRoot +:+ ".read-timeout") * Second))
      saramaConfig
  else saramaConfig.

(** The registry after the two [viper.SetDefault] calls. *)
Definition setDefaults (configRoot : string) (v : viper.t) : viper.t :=
  viper.SetDefault
    (viper.SetDefault v (configRoot +:+ ".client-id") "burrow-lagchecker")
    (configRoot +:+ ".kafka-version") "2.8.0".

(** The body of the builder once the profile is known to exist and the
    defaults are registered. *)
Definition assemble (v : viper.t) (profileName configRoot : string)
    : outcome Config :=
  let saramaConfig := NewConfig in
  let saramaConfig :=
    set_ClientID (viper.GetString v (configRoot +:+ ".client-id"))
      saramaConfig in
  version ← parseKafkaVersion ParseKafkaVersion
              (viper.GetString v (configRoot +:+ ".kafka-version"));
  let saramaConfig := set_Version version saramaConfig in
  let saramaConfig := set_Consumer_Return_Errors true saramaConfig in
  saramaConfig ← configureTLS v configRoot saramaConfig;
  let saramaConfig := configureSASL v configRoot saramaConfig in
  saramaConfig ← configureIAM v profileName configRoot saramaConfig;
  Ok (configureTimeouts v configRoot saramaConfig).

(** The builder: the registry it leaves behind and its outcome. *)
Definition GetSaramaConfigFromClientProfile (profileName : string)
    (v : viper.t) : viper.t * outcome Config :=
  let configRoot := "client-profile." +:+ profileName in
  if negb (String.eqb profileName "")
     && negb (viper.IsSet v ("client-profile." +:+ profileName))
  then (v, Panic ("unknown client-profile '" +:+ profileName +:+ "'"))
  else
    let v := setDefaults configRoot v in
    (v, assemble v profileName configRoot).

(** The configuration the builder returns, when it returns one. *)
Definition build (profileName : string) (v : viper.t) : outcome Config :=
  (GetSaramaConfigFromClientProfile profileName v).2.

(** *** Vocabulary of the statements *)

(** The profile exists, or is the unnamed default profile. *)
Definition profileKnown (profileName : string) (v : viper.t) : bool :=
  String.eqb profileName ""
  || viper.IsSet v ("client-profile." +:+ profileName).

(** The version string of the profile, [2.8.0] when it gives none. *)
Definition profileVersion (profileName : string) (v : viper.t) : string :=
  let configRoot := "client-profile." +:+ profileName in
  viper.GetString (setDefaults configRoot v) (configRoot +:+ ".kafka-version").

(** The configuration handed to the TLS block. *)
Definition seeded (v : viper.t) (configRoot : string) (version : KafkaVersion)
    : Config :=
  set_Consumer_Return_Errors true
    (set_Version version
       (set_ClientID (viper.GetString v (configRoot +:+ ".client-id"))
          NewConfig)).

(** A key the two defaults of a profile leave alone: it is neither of the
    two defaulted keys nor a table above them. *)
Definition untouched (configRoot key : string) : Prop :=
  configRoot +:+ ".client-id" ≠ key
  ∧ configRoot +:+ ".kafka-version" ≠ key
  ∧ String.prefix (key +:+ ".") (configRoot +:+ ".client-id") = false
  ∧ String.prefix (key +:+ ".") (configRoot +:+ ".kafka-version") = false.

(** The files a TLS sub-profile points to can be loaded: the CA bundle
    when one is given and, with it, the certificate and key pair when both
    are given. *)
Definition tlsMaterialLoads (v : viper.t) (tlsName : string) : bool :=
  let certFile := viper.GetString v ("tls." +:+ tlsName +:+ ".certfile") in
  let keyFile := viper.GetString v ("tls." +:+ tlsName +:+ ".keyfile") in
  let caFile := viper.GetString v ("tls." +:+ tlsName +:+ ".cafile") in
  if String.eqb caFile "" then true
  else
    match ReadFile caFile with
    | inr _ => false
    | inl _ =>
        if negb (String.eqb certFile "") && negb (String.eqb keyFile "")
        then match LoadX509KeyPair certFile keyFile with
             | inr _ => false
             | inl _ => true
             end
        else true
    end.
(** The conditions under which the builder returns: the profile is known,
    its version resolves, the files of its TLS sub-profile load, and an iam
    sub-profile comes with a region and with TLS. *)
Definition buildable (profileName : string) (v : viper.t) : bool :=
  let configRoot := "client-profile." +:+ profileName in
  let tlsName := viper.GetString v (configRoot +:+ ".tls") in
  let iamName := viper.GetString v (configRoot +:+ ".iam") in
  let iamRoot := "iam." +:+ iamName in
  profileKnown profileName v
  && succeeds (parseKafkaVersion ParseKafkaVersion
                 (profileVersion profileName v))
  && (if viper.IsSet v (configRoot +:+ ".tls")
      then tlsMaterialLoads v tlsName else true)
  && (if String.eqb iamName "" then true
      else negb (String.eqb (viper.GetString v (iamRoot +:+ ".region")) "")
           && (viper.IsSet v (configRoot +:+ ".tls")
               || TLS_Enable (TLS (Net NewConfig)))).
End Builder.

(** ** The client shim

    [BurrowSaramaClient] wraps a [sarama.Client]; [BurrowSaramaBroker] wraps
    a [*sarama.Broker]. Of the client only the broker list it reports is
    kept. A [SaramaBroker] is [None] when it is nil. *)

Section Shim.
Context {Broker : Type}.

Record BurrowSaramaBroker : Type := { broker : Broker }.

Record sarama_Client : Type := { Client_Brokers : list Broker }.

Record BurrowSaramaClient : Type := { Client : sarama_Client }.

(** [Brokers]: the slice is allocated at the length of the client's list
    and filled in by index. *)
Definition Brokers (c : BurrowSaramaClient)
    : list (option BurrowSaramaBroker) :=
  let brokers := Client_Brokers (Client c) in
  let shimBrokers := replicate (length brokers) None in
  (foldl (λ '(i, shimBrokers) broker,
            (S i, <[i := Some {| broker := broker |}]> shimBrokers))
         (0%nat, shimBrokers) brokers).2.
End Shim.

Arguments BurrowSaramaBroker : clear implicits.
Arguments sarama_Client : clear implicits.
Arguments BurrowSaramaClient : clear implicits.

(** ** A concrete environment

    An instance of the library calls, to run the builder on concrete
    registries: a parser that accepts only the listed modern releases, a file
    system holding three files, certificate pools as the list of PEM texts
    appended to them, and certificates as the pair of file contents. *)

Module Env.
(** Values of the requested type convert to themselves and booleans and
    integers are printed; a string converts to a boolean as
    [strconv.ParseBool] does, and to the integer 0. *)
Definition cast : viper.Cast := {|
  viper.ToString x :=
    match x with
    | viper.VString s => s
    | viper.VBool b => if b then "true" else "false"
    | viper.VInt n => pretty n
    end;
  viper.ToBool x :=
    match x with
    | viper.VBool b => b
    | viper.VInt n => negb (n =? 0)
    | viper.VString s =>
        bool_decide (s ∈ ["1"; "t"; "T"; "TRUE"; "true"; "True"])
    end;
  viper.ToInt x :=
    match x with
    | viper.VInt n => n
    | viper.VBool b => if b then 1 else 0
    | viper.VString _ => 0
    end
|}.

Definition V2_0_0_0 := newKafkaVersion 2 0 0 0.
Definition V2_8_0_0 := newKafkaVersion 2 8 0 0.

Definition ParseKafkaVersion (s : string) : KafkaVersion + string :=
  if String.eqb s "2.8.0" then inl V2_8_0_0
  else if String.eqb s "2.0.0" then inl V2_0_0_0
  else inr ("invalid version `" +:+ s +:+ "`").

Definition ReadFile (path : string) : string + string :=
  if String.eqb path "/etc/burrow/ca.pem" then inl "CA"
  else if String.eqb path "/etc/burrow/cert.pem" then inl "CERT"
  else if String.eqb path "/etc/burrow/key.pem" then inl "KEY"
  else inr ("open " +:+ path +:+ ": no such file or directory").

Definition NewCertPool : list string := [].
Definition AppendCertsFromPEM (pool : list string) (pem : string)
    : list string := pool ++ [pem].

Definition LoadX509KeyPair (certFile keyFile : string)
    : (string * string) + string :=
  match ReadFile certFile, ReadFile keyFile with
  | inl c, inl k => inl (c, k)
  | inr e, _ => inr e
  | _, inr e => inr e
  end.

(** The fresh configuration: thirty-second timeouts, handshake on, and
    the zero value elsewhere. *)
Definition NewConfig : Config (list string) (string * string) := {|
  Net := {|
    TLS := {| TLS_Enable := false; TLS_Config := None |};
    SASL := {| SASL_Enable := false; Mechanism := "";
               SCRAMClientGeneratorFunc := None; Handshake := true;
               User := ""; Password := ""; TokenProvider := None |};
    DialTimeout := 30 * Second;
    ReadTimeout := 30 * Second |};
  ClientID := "sarama";
  Version := V2_0_0_0;
  Consumer_Return_Errors := false
|}.

Definition GetSaramaConfigFromClientProfile :=
  GetSaramaConfigFromClientProfile (H := cast) ParseKafkaVersion NewConfig
    ReadFile NewCertPool AppendCertsFromPEM LoadX509KeyPair.

Definition build :=
  build (H := cast) ParseKafkaVersion NewConfig ReadFile NewCertPool
    AppendCertsFromPEM LoadX509KeyPair.

(** A registry loaded from a configuration file, with no defaults yet. *)
Definition loaded (file : list (string * viper.value)) : viper.t :=
  viper.mk (list_to_map file) ∅.

(** The profile of the sample configuration file. *)
Definition sample : viper.t := loaded [
  ("client-profile.test.client-id", viper.VString "burrow-test");
  ("client-profile.test.kafka-version", viper.VString "0.10.0")
].

(** A profile with TLS (certificate and key, no CA bundle). *)
Definition tls_no_ca : viper.t := loaded [
  ("client-profile.secure.tls", viper.VString "mutual");
  ("tls.mutual.certfile", viper.VString "/etc/burrow/cert.pem");
  ("tls.mutual.keyfile", viper.VString "/etc/burrow/key.pem");
  ("tls.mutual.noverify", viper.VBool true)
].

(** The same with a CA bundle. *)
Definition tls_with_ca : viper.t := loaded [
  ("client-profile.secure.tls", viper.VString "mutual");
  ("tls.mutual.certfile", viper.VString "/etc/burrow/cert.pem");
  ("tls.mutual.keyfile", viper.VString "/etc/burrow/key.pem");
  ("tls.mutual.cafile", viper.VString "/etc/burrow/ca.pem")
].

(** A profile with an unrecognized SASL mechanism and no IAM. *)
Definition sasl_plain : viper.t := loaded [
  ("client-profile.legacy.sasl", viper.VString "plain");
  ("sasl.plain.mechanism", viper.VString "PLAIN");
  ("sasl.plain.handshake-first", viper.VBool false);
  ("sasl.plain.username", viper.VString "burrow");
  ("sasl.plain.password", viper.VString "secret")
].

(** A profile with TLS, SASL and IAM. *)
Definition msk (mechanism : string) : viper.t := loaded [
  ("client-profile.msk-iam.kafka-version", viper.VString "2.0.0");
  ("client-profile.msk-iam.client-id", viper.VString "burrow");
  ("client-profile.msk-iam.tls", viper.VString "msk-tls");
  ("client-profile.msk-iam.sasl", viper.VString "scram");
  ("client-profile.msk-iam.iam", viper.VString "eks");
  ("tls.msk-tls.noverify", viper.VBool false);
  ("sasl.scram.mechanism", viper.VString mechanism);
  ("sasl.scram.handshake-first", viper.VBool false);
  ("sasl.scram.username", viper.VString "burrow");
  ("sasl.scram.password", viper.VString "secret");
  ("iam.eks.region", viper.VString "us-west-1")
].

(** A profile with TLS and IAM whose version string is not a version. *)
Definition msk_bad_version : viper.t := loaded [
  ("client-profile.msk-iam.kafka-version", viper.VString "bogus");
  ("client-profile.msk-iam.tls", viper.VString "msk-tls");
  ("client-profile.msk-iam.iam", viper.VString "eks");
  ("iam.eks.region", viper.VString "us-west-1")
].

(** A profile with IAM but neither a region nor TLS. *)
Definition iam_only : viper.t := loaded [
  ("client-profile.msk-iam.iam", viper.VString "eks")
].

(** A profile with IAM and a region but no TLS. *)
Definition iam_no_tls : viper.t := loaded [
  ("client-profile.msk-iam.iam", viper.VString "eks");
  ("iam.eks.region", viper.VString "us-west-1")
].
(** A profile with timeouts. *)
Definition with_timeouts : viper.t := loaded [
  ("client-profile.slow.dial-timeout", viper.VInt 10)
].

(** A profile whose CA bundle does not exist. *)
Definition tls_missing_ca : viper.t := loaded [
  ("client-profile.secure.tls", viper.VString "mutual");
  ("tls.mutual.cafile", viper.VString "/etc/burrow/missing.pem")
].

(** A profile with TLS and IAM, and no SASL. *)
Definition msk_no_sasl : viper.t := loaded [
  ("client-profile.msk-iam.tls", viper.VString "msk-tls");
  ("client-profile.msk-iam.iam", viper.VString "eks");
  ("iam.eks.region", viper.VString "us-west-1");
  ("iam.eks.role-arn", viper.VString "arn:aws:iam::123456789012:role/burrow")
].
End Env.

(** * Properties *)

(** ** The version resolver *)

(** C1, as stated, fails on the table: ["0.8"] and ["0.10"] do not resolve
    to the latest patch release the table knows of their minor line, and
    ["0.8.0"] and ["0.8.1"] resolve to two different versions. *)
Lemma minor_only_not_latest_patch :
  ¬ (∀ k version, k ∈ minor_only →
       legacyKafkaVersionFallback !! k = Some version →
       latest_known_patch version = true)
  ∧ legacyKafkaVersionFallback !! "0.8.0"
    ≠ legacyKafkaVersionFallback !! "0.8.1".
Proof.
  split.
  - intros Hall. specialize (Hall "0.8" V0_8_2_0).
    assert (latest_known_patch V0_8_2_0 = true) as Hlatest.
    { apply Hall; [apply elem_of_cons; by left | by vm_compute]. }
    vm_compute in Hlatest. discriminate.
  - vm_compute. discriminate.
Qed.

(** C1, amended. In the table every minor-only specifier resolves to the
    version of the [.0] point key of its minor line: 0.8.2.0, 0.9.0.0,
    0.10.0.0 and 0.11.0.0, which is the latest patch release the table
    knows for 0.9 and 0.11 but not for 0.8 and 0.10; and the point keys
    ["0.8.0"], ["0.8.1"], ["0.8.2"] resolve to the three releases 0.8.2.0,
    0.8.2.1, 0.8.2.2. *)
Theorem legacy_minor_and_point_keys :
  (∀ k, k ∈ minor_only →
     legacyKafkaVersionFallback !! k
     = legacyKafkaVersionFallback !! (k +:+ ".0"))
  ∧ legacyKafkaVersionFallback !! "0.8" = Some (newKafkaVersion 0 8 2 0)
  ∧ legacyKafkaVersionFallback !! "0.9" = Some (newKafkaVersion 0 9 0 0)
  ∧ legacyKafkaVersionFallback !! "0.10" = Some (newKafkaVersion 0 10 0 0)
  ∧ legacyKafkaVersionFallback !! "0.11" = Some (newKafkaVersion 0 11 0 0)
  ∧ latest_known_patch (newKafkaVersion 0 8 2 0) = false
  ∧ latest_known_patch (newKafkaVersion 0 9 0 0) = true
  ∧ latest_known_patch (newKafkaVersion 0 10 0 0) = false
  ∧ latest_known_patch (newKafkaVersion 0 11 0 0) = true
  ∧ legacyKafkaVersionFallback !! "0.8.0" = Some (newKafkaVersion 0 8 2 0)
  ∧ legacyKafkaVersionFallback !! "0.8.1" = Some (newKafkaVersion 0 8 2 1)
  ∧ legacyKafkaVersionFallback !! "0.8.2" = Some (newKafkaVersion 0 8 2 2).
Proof.
  split; [|by vm_compute].
  intros k Hk. unfold minor_only in Hk.
  repeat (apply elem_of_cons in Hk as [->|Hk]); [by vm_compute..|].
  by apply elem_of_nil in Hk.
Qed.

Section ResolverFacts.
Variable ParseKafkaVersion : string → KafkaVersion + string.

Local Abbreviation parse := (parseKafkaVersion ParseKafkaVersion).
Local Abbreviation rejected := (rejects ParseKafkaVersion).

(** C4. On every string the resolver either returns the version of the
    strict parser, or (the strict parser rejecting the string) the
    version the table gives, or (the table having no entry either)
    panics with the unknown-version message: no other version is ever
    returned. *)
Theorem parseKafkaVersion_total (s : string) :
  (∃ version,
     parse s = Ok version
     ∧ (ParseKafkaVersion s = inl version
        ∨ (rejected s ∧ legacyKafkaVersionFallback !! s = Some version)))
  ∨ (parse s = Panic ("Unknown Kafka Version: " +:+ s)
     ∧ rejected s
     ∧ legacyKafkaVersionFallback !! s = None).
Proof.
  unfold parseKafkaVersion, rejects.
  destruct (ParseKafkaVersion s) as [version|err]; [by eauto|].
  destruct (legacyKafkaVersionFallback !! s) as [version|]; by eauto 8.
Qed.

Lemma parse_fallback s version :
  rejected s → legacyKafkaVersionFallback !! s = Some version →
  parse s = Ok version.
Proof. intros [err Hs] Hv. unfold parseKafkaVersion. by rewrite Hs, Hv. Qed.

(** C5. A key of the fallback table that the strict parser rejects
    resolves to the version the table enumerates for it; so ["0.8.1"]
    resolves to 0.8.2.1 and the empty string to 0.10.2.0. *)
Theorem legacy_keys_resolve (k : string) (version : KafkaVersion) :
  rejected k →
  (k, version) ∈
    [("", newKafkaVersion 0 10 2 0);
     ("0.8.0", newKafkaVersion 0 8 2 0);
     ("0.8.1", newKafkaVersion 0 8 2 1);
     ("0.8.2", newKafkaVersion 0 8 2 2);
     ("0.8", newKafkaVersion 0 8 2 0);
     ("0.9.0", newKafkaVersion 0 9 0 0);
     ("0.9", newKafkaVersion 0 9 0 0);
     ("0.10.0", newKafkaVersion 0 10 0 0);
     ("0.10.1", newKafkaVersion 0 10 1 0);
     ("0.10.2", newKafkaVersion 0 10 2 0);
     ("0.10", newKafkaVersion 0 10 0 0);
     ("0.11.0", newKafkaVersion 0 11 0 0);
     ("0.11", newKafkaVersion 0 11 0 0)] →
  parse k = Ok version.
Proof.
  intros Hrej Hin. apply parse_fallback; [done|].
  repeat (apply elem_of_cons in Hin as [[= -> ->]|Hin]); [by vm_compute..|].
  by apply elem_of_nil in Hin.
Qed.

(** Every key of the table is one of the enumerated ones. *)
Lemma legacy_keys_enumerated k :
  is_Some (legacyKafkaVersionFallback !! k) →
  k ∈ ["";  "0.8.0"; "0.8.1"; "0.8.2"; "0.8"; "0.9.0"; "0.9"; "0.10.0";
       "0.10.1"; "0.10.2"; "0.10"; "0.11.0"; "0.11"].
Proof.
  intros [version Hk]. apply elem_of_list_to_map_2 in Hk.
  apply (list_elem_of_fmap_2 fst) in Hk. exact Hk.
Qed.
End ResolverFacts.

(** ** Strings and keys *)

Lemma append_inj_l (r a b : string) : r +:+ a = r +:+ b → a = b.
Proof. induction r as [|c r IH]; simpl; [done|]. intros [= ?]. auto. Qed.

Lemma append_assoc (r a b : string) : (r +:+ a) +:+ b = r +:+ (a +:+ b).
Proof. induction r as [|c r IH]; simpl; [done|]. f_equal. exact IH. Qed.

Lemma prefix_append_l (r a b : string) :
  String.prefix (r +:+ a) (r +:+ b) = String.prefix a b.
Proof.
  induction r as [|c r IH]; simpl; [done|].
  destruct (ascii_dec c c); [done | congruence].
Qed.

(** ** The registry *)

Section Registry.
Context `{viper.Cast}.

Lemma Get_SetDefault_ne v k d k' :
  k ≠ k' → viper.Get (viper.SetDefault v k d) k' = viper.Get v k'.
Proof.
  intros Hne. unfold viper.Get, viper.SetDefault. simpl.
  by rewrite lookup_insert_ne.
Qed.

Lemma below_insert_ne k' k x (m : gmap string viper.value) :
  String.prefix (k' +:+ ".") k = false →
  viper.below k' (<[k := x]> m) ↔ viper.below k' m.
Proof.
  intros Hp. unfold viper.below. rewrite !map_Exists_lookup. split.
  - intros (i & y & Hi & HP). destruct (decide (k = i)) as [->|Hne].
    + congruence.
    + rewrite lookup_insert_ne in Hi by done. eauto.
  - intros (i & y & Hi & HP). exists i, y. split; [|done].
    rewrite lookup_insert_ne; [done|]. intros ->. congruence.
Qed.

Lemma IsSet_SetDefault_ne v k d k' :
  k ≠ k' → String.prefix (k' +:+ ".") k = false →
  viper.IsSet (viper.SetDefault v k d) k' = viper.IsSet v k'.
Proof.
  intros Hne Hp. unfold viper.IsSet. rewrite Get_SetDefault_ne by done.
  simpl. f_equal. apply bool_decide_ext. by apply below_insert_ne.
Qed.

Lemma IsSet_SetDefault_above v k d k' :
  String.prefix (k' +:+ ".") k = true →
  viper.IsSet (viper.SetDefault v k d) k' = true.
Proof.
  intros Hp. unfold viper.IsSet. apply orb_true_intro. right.
  apply bool_decide_eq_true_2. simpl.
  eapply map_Exists_lookup_2; [apply lookup_insert_eq | done].
Qed.

Lemma SetDefault_SetDefault v k1 d1 k2 d2 :
  let v' := viper.SetDefault (viper.SetDefault v k1 d1) k2 d2 in
  viper.SetDefault (viper.SetDefault v' k1 d1) k2 d2 = v'.
Proof.
  unfold viper.SetDefault. simpl. f_equal. apply map_eq. intros i.
  rewrite !lookup_insert. repeat case_decide; done.
Qed.

Lemma Get_setDefaults root v key :
  untouched root key → viper.Get (setDefaults root v) key = viper.Get v key.
Proof.
  intros (? & ? & _). unfold setDefaults.
  by rewrite !Get_SetDefault_ne.
Qed.

Lemma GetString_setDefaults root v key :
  untouched root key →
  viper.GetString (setDefaults root v) key = viper.GetString v key.
Proof. intros. unfold viper.GetString. by rewrite Get_setDefaults. Qed.

Lemma GetBool_setDefaults root v key :
  untouched root key →
  viper.GetBool (setDefaults root v) key = viper.GetBool v key.
Proof. intros. unfold viper.GetBool. by rewrite Get_setDefaults. Qed.

Lemma GetInt_setDefaults root v key :
  untouched root key →
  viper.GetInt (setDefaults root v) key = viper.GetInt v key.
Proof. intros. unfold viper.GetInt. by rewrite Get_setDefaults. Qed.

Lemma IsSet_setDefaults root v key :
  untouched root key →
  viper.IsSet (setDefaults root v) key = viper.IsSet v key.
Proof.
  intros (? & ? & ? & ?). unfold setDefaults.
  by rewrite !IsSet_SetDefault_ne.
Qed.

Lemma setDefaults_idem root v :
  setDefaults root (setDefaults root v) = setDefaults root v.
Proof. unfold setDefaults. apply SetDefault_SetDefault. Qed.

Lemma IsSet_setDefaults_root root v :
  viper.IsSet (setDefaults root v) root = true.
Proof.
  unfold setDefaults. apply IsSet_SetDefault_above.
  by rewrite prefix_append_l.
Qed.

(** The keys the builder reads after registering the defaults. *)
Lemma untouched_field root (f : string) :
  ".client-id" ≠ f → ".kafka-version" ≠ f →
  String.prefix (f +:+ ".") ".client-id" = false →
  String.prefix (f +:+ ".") ".kafka-version" = false →
  untouched root (root +:+ f).
Proof.
  intros Hc Hk Hpc Hpk. unfold untouched.
  rewrite !append_assoc, !prefix_append_l.
  repeat split; try done; intros ?%append_inj_l; done.
Qed.

End Registry.

Ltac solve_untouched :=
  first
    [ apply untouched_field; simpl; done
    | unfold untouched;
      repeat match goal with x := _ : string |- _ => subst x end;
      simpl; repeat split; done ].

(** Reads of the builder after the defaults, as reads of the registry it
    was given. *)
Ltac reads_of_input :=
  repeat match goal with
  | |- context [viper.GetString (setDefaults ?r ?v) ?k] =>
      rewrite (GetString_setDefaults r v k) by solve_untouched
  | |- context [viper.GetBool (setDefaults ?r ?v) ?k] =>
      rewrite (GetBool_setDefaults r v k) by solve_untouched
  | |- context [viper.GetInt (setDefaults ?r ?v) ?k] =>
      rewrite (GetInt_setDefaults r v k) by solve_untouched
  | |- context [viper.IsSet (setDefaults ?r ?v) ?k] =>
      rewrite (IsSet_setDefaults r v k) by solve_untouched
  | H : context [viper.GetString (setDefaults ?r ?v) ?k] |- _ =>
      rewrite (GetString_setDefaults r v k) in H by solve_untouched
  | H : context [viper.GetBool (setDefaults ?r ?v) ?k] |- _ =>
      rewrite (GetBool_setDefaults r v k) in H by solve_untouched
  | H : context [viper.GetInt (setDefaults ?r ?v) ?k] |- _ =>
      rewrite (GetInt_setDefaults r v k) in H by solve_untouched
  | H : context [viper.IsSet (setDefaults ?r ?v) ?k] |- _ =>
      rewrite (IsSet_setDefaults r v k) in H by solve_untouched
  end.

(** ** The builder *)

Section BuilderFacts.
Context `{viper.Cast} {CertPool Certificate : Type}.
Variable ParseKafkaVersion : string → KafkaVersion + string.
Variable NewConfig : Config CertPool Certificate.
Variable ReadFile : string → string + string.
Variable NewCertPool : CertPool.
Variable AppendCertsFromPEM : CertPool → string → CertPool.
Variable LoadX509KeyPair : string → string → Certificate + string.

Local Abbreviation build' :=
  (build ParseKafkaVersion NewConfig ReadFile NewCertPool
     AppendCertsFromPEM LoadX509KeyPair).
Local Abbreviation configureTLS' :=
  (configureTLS ReadFile NewCertPool AppendCertsFromPEM LoadX509KeyPair).

Lemma bind_Ok {A B} (x : outcome A) (k : A → outcome B) b :
  x ≫= k = Ok b → ∃ a, x = Ok a ∧ k a = Ok b.
Proof. destruct x; simpl; [eauto | done]. Qed.

Lemma bind_panics_Ok {A B} (x : outcome A) (k : A → outcome B) :
  (∀ a, x = Ok a → panics (k a)) → panics (x ≫= k).
Proof. intros Hk. destruct x; simpl; [by apply Hk | by eexists]. Qed.

Lemma build_eq name v :
  let root := "client-profile." +:+ name in
  build' name v =
    if negb (String.eqb name "") && negb (viper.IsSet v root)
    then Panic ("unknown client-profile '" +:+ name +:+ "'")
    else assemble ParseKafkaVersion NewConfig ReadFile NewCertPool
           AppendCertsFromPEM LoadX509KeyPair (setDefaults root v) name root.
Proof.
  unfold build, GetSaramaConfigFromClientProfile. simpl.
  by case_match.
Qed.

(** A build that returns went through every block. *)
Lemma build_Ok_inv name v cfg :
  let root := "client-profile." +:+ name in
  let v' := setDefaults root v in
  build' name v = Ok cfg →
  ∃ version c1 c3,
    parseKafkaVersion ParseKafkaVersion
      (viper.GetString v' (root +:+ ".kafka-version")) = Ok version
    ∧ configureTLS' v' root (seeded NewConfig v' root version) = Ok c1
    ∧ configureIAM v' name root (configureSASL v' root c1) = Ok c3
    ∧ cfg = configureTimeouts v' root c3.
Proof.
  intros root v'. rewrite build_eq. fold root. case_match; [done|].
  unfold assemble. fold v'.
  intros (version & Hver & (c1 & Htls & (c3 & Hiam & [= <-])%bind_Ok)%bind_Ok)%bind_Ok.
  by exists version, c1, c3.
Qed.

(** What each block leaves alone. *)
Lemma configureTLS_SASL v root c c' :
  configureTLS' v root c = Ok c' → SASL (Net c') = SASL (Net c).
Proof.
  unfold configureTLS. case_match; [|by intros [= <-]].
  intros (c1 & Hc1 & [= <-])%bind_Ok. simpl.
  repeat case_match; simplify_eq/=; done.
Qed.

Lemma configureSASL_TLS v root (c : Config CertPool Certificate) :
  TLS (Net (configureSASL v root c)) = TLS (Net c).
Proof. unfold configureSASL. by repeat case_match. Qed.

Lemma configureIAM_TLS v name root (c c' : Config CertPool Certificate) :
  configureIAM v name root c = Ok c' → TLS (Net c') = TLS (Net c).
Proof. unfold configureIAM. repeat case_match; by intros [= <-]. Qed.

Lemma configureTimeouts_TLS v root (c : Config CertPool Certificate) :
  TLS (Net (configureTimeouts v root c)) = TLS (Net c).
Proof. unfold configureTimeouts. by repeat case_match. Qed.

Lemma configureTimeouts_SASL v root (c : Config CertPool Certificate) :
  SASL (Net (configureTimeouts v root c)) = SASL (Net c).
Proof. unfold configureTimeouts. by repeat case_match. Qed.

(** The TLS block enables TLS exactly when the profile names a TLS
    sub-profile. *)
Lemma configureTLS_Enable v root c c' :
  configureTLS' v root c = Ok c' →
  TLS_Enable (TLS (Net c')) =
    if viper.IsSet v (root +:+ ".tls") then true
    else TLS_Enable (TLS (Net c)).
Proof.
  unfold configureTLS. case_match; [|by intros [= <-]].
  intros (c1 & Hc1 & [= <-])%bind_Ok. simpl.
  repeat case_match; simplify_eq/=; done.
Qed.

(** The TLS settings of a returned configuration are those the TLS block
    produced. *)
Lemma build_Ok_TLS name v cfg :
  let root := "client-profile." +:+ name in
  let v' := setDefaults root v in
  build' name v = Ok cfg →
  ∃ version c1,
    configureTLS' v' root (seeded NewConfig v' root version) = Ok c1
    ∧ TLS (Net cfg) = TLS (Net c1).
Proof.
  intros root v' (version & c1 & c3 & _ & Htls & Hiam & ->)%build_Ok_inv.
  exists version, c1. split; [done|].
  rewrite configureTimeouts_TLS. apply configureIAM_TLS in Hiam.
  by rewrite Hiam, configureSASL_TLS.
Qed.

(** The SASL settings of a returned configuration are those the IAM block
    produced from the SASL block's. *)
Lemma build_Ok_SASL name v cfg :
  let root := "client-profile." +:+ name in
  let v' := setDefaults root v in
  build' name v = Ok cfg →
  ∃ c1 c3 : Config CertPool Certificate,
    SASL (Net c1) = SASL (Net NewConfig)
    ∧ configureIAM v' name root (configureSASL v' root c1) = Ok c3
    ∧ SASL (Net cfg) = SASL (Net c3).
Proof.
  intros root v' (version & c1 & c3 & _ & Htls & Hiam & ->)%build_Ok_inv.
  exists c1, c3. split_and!; [|done|by rewrite configureTimeouts_SASL].
  by apply configureTLS_SASL in Htls.
Qed.
Lemma bind_panics_l {A B} (x : outcome A) (k : A → outcome B) :
  panics x → panics (x ≫= k).
Proof. intros [msg ->]. by eexists. Qed.

(** An unknown version string fails the build of a known profile. *)
Lemma build_unknown_version name v msg :
  profileKnown name v = true →
  parseKafkaVersion ParseKafkaVersion (profileVersion name v) = Panic msg →
  build' name v = Panic msg.
Proof.
  unfold profileKnown, profileVersion. cbv zeta. intros Hknown Hver.
  rewrite build_eq. cbv zeta. rewrite <- negb_orb, Hknown. cbn [negb].
  unfold assemble. by rewrite Hver.
Qed.

(** *** The cloud-identity block *)

(** C3. A profile that names an iam sub-profile does not build when the
    sub-profile has no region, nor when the profile names no TLS
    sub-profile (a fresh configuration having TLS disabled): the builder
    panics, whatever the other settings are. *)
Theorem iam_requires_region_and_tls name v :
  let root := "client-profile." +:+ name in
  let iamName := viper.GetString v (root +:+ ".iam") in
  let iamRoot := "iam." +:+ iamName in
  TLS_Enable (TLS (Net NewConfig)) = false →
  iamName ≠ "" →
  viper.GetString v (iamRoot +:+ ".region") = ""
    ∨ viper.IsSet v (root +:+ ".tls") = false →
  panics (build' name v).
Proof.
  intros root iamName iamRoot Hfresh Hiam Hbad. rewrite build_eq. fold root.
  case_match; [by eexists|].
  unfold assemble. apply bind_panics_Ok; intros version _.
  apply bind_panics_Ok; intros c1 Htls. apply bind_panics_l.
  unfold configureIAM. reads_of_input. fold iamName iamRoot.
  apply String.eqb_neq in Hiam as ->. cbn [negb].
  destruct (String.eqb_spec (viper.GetString v (iamRoot +:+ ".region")) "")
    as [_|Hregion]; [by eexists|].
  destruct Hbad as [?|Hno]; [done|].
  rewrite configureSASL_TLS, (configureTLS_Enable _ _ _ _ Htls).
  reads_of_input. rewrite Hno. cbn. rewrite Hfresh. by eexists.
Qed.
(** *** The TLS block *)

(** C7. When the profile names a TLS sub-profile that gives no CA bundle
    path, a configuration the builder returns has TLS enabled with the
    empty [tls.Config] (no roots, no certificates), carrying the
    sub-profile's [noverify] flag. *)
Theorem tls_without_ca_bundle name v cfg :
  let root := "client-profile." +:+ name in
  let tlsName := viper.GetString v (root +:+ ".tls") in
  viper.IsSet v (root +:+ ".tls") = true →
  viper.GetString v ("tls." +:+ tlsName +:+ ".cafile") = "" →
  build' name v = Ok cfg →
  TLS (Net cfg) =
    {| TLS_Enable := true;
       TLS_Config :=
         Some {| RootCAs := None; Certificates := [];
                 InsecureSkipVerify :=
                   viper.GetBool v ("tls." +:+ tlsName +:+ ".noverify") |} |}.
Proof.
  intros root tlsName Hset Hca (version & c1 & Htls & ->)%build_Ok_TLS.
  fold root in Htls. unfold configureTLS in Htls. reads_of_input.
  fold tlsName in Htls. rewrite Hset, Hca in Htls.
  cbn in Htls. by injection Htls as <-.
Qed.

(** *** The SASL and cloud-identity blocks *)

(** C10. When the profile names both a sasl and an iam sub-profile, a
    configuration the builder returns (which it does only with TLS and a
    region) has the OAuth mechanism and handshake-first set, whatever
    mechanism and handshake-first the sasl sub-profile gives, and keeps
    the sasl sub-profile's username and password. *)
Theorem iam_overrides_sasl name v cfg :
  let root := "client-profile." +:+ name in
  let saslName := viper.GetString v (root +:+ ".sasl") in
  viper.IsSet v (root +:+ ".sasl") = true →
  viper.GetString v (root +:+ ".iam") ≠ "" →
  build' name v = Ok cfg →
  SASL_Enable (SASL (Net cfg)) = true
  ∧ Mechanism (SASL (Net cfg)) = SASLTypeOAuth
  ∧ Handshake (SASL (Net cfg)) = true
  ∧ User (SASL (Net cfg)) =
      viper.GetString v ("sasl." +:+ saslName +:+ ".username")
  ∧ Password (SASL (Net cfg)) =
      viper.GetString v ("sasl." +:+ saslName +:+ ".password").
Proof.
  intros root saslName Hsasl Hiam (c1 & c3 & _ & Hc3 & ->)%build_Ok_SASL.
  fold root in Hc3. unfold configureIAM in Hc3. reads_of_input.
  apply String.eqb_neq in Hiam. rewrite Hiam in Hc3. cbn [negb] in Hc3.
  repeat case_match; try done. injection Hc3 as <-.
  unfold configureSASL. reads_of_input. rewrite Hsasl.
  repeat case_match; done.
Qed.

(** C8, amended. When the profile names a sasl sub-profile whose mechanism
    is neither [SCRAM-SHA-256] nor [SCRAM-SHA-512], and names no iam
    sub-profile, a configuration the builder returns has SASL enabled, the
    mechanism, client generator and token provider of the fresh
    configuration, and the sub-profile's handshake-first flag, username
    and password. *)
Theorem sasl_unrecognized_mechanism name v cfg :
  let root := "client-profile." +:+ name in
  let saslName := viper.GetString v (root +:+ ".sasl") in
  let mechanism := viper.GetString v ("sasl." +:+ saslName +:+ ".mechanism") in
  viper.IsSet v (root +:+ ".sasl") = true →
  mechanism ≠ "SCRAM-SHA-256" →
  mechanism ≠ "SCRAM-SHA-512" →
  viper.GetString v (root +:+ ".iam") = "" →
  build' name v = Ok cfg →
  SASL (Net cfg) =
    {| SASL_Enable := true;
       Mechanism := Mechanism (SASL (Net NewConfig));
       SCRAMClientGeneratorFunc :=
         SCRAMClientGeneratorFunc (SASL (Net NewConfig));
       Handshake :=
         viper.GetBool v ("sasl." +:+ saslName +:+ ".handshake-first");
       User := viper.GetString v ("sasl." +:+ saslName +:+ ".username");
       Password := viper.GetString v ("sasl." +:+ saslName +:+ ".password");
       TokenProvider := TokenProvider (SASL (Net NewConfig)) |}.
Proof.
  intros root saslName mechanism Hsasl H256 H512 Hiam
    (c1 & c3 & Hc1 & Hc3 & ->)%build_Ok_SASL.
  fold root in Hc3. unfold configureIAM in Hc3. reads_of_input.
  rewrite Hiam in Hc3. cbn [negb String.eqb] in Hc3. injection Hc3 as <-.
  unfold configureSASL. reads_of_input. fold saslName mechanism.
  apply String.eqb_neq in H256, H512. rewrite Hsasl, H256, H512.
  cbn. by rewrite Hc1.
Qed.

(** C2, amended. When the TLS sub-profile gives both a certificate file and
    a key file: with a CA bundle path, a pair that does not load makes the
    builder panic and a pair that loads is the one certificate of a
    returned configuration; with no CA bundle path, a returned
    configuration carries no certificate. *)
Theorem keypair_loaded_with_ca_bundle name v :
  let root := "client-profile." +:+ name in
  let tlsName := viper.GetString v (root +:+ ".tls") in
  let certFile := viper.GetString v ("tls." +:+ tlsName +:+ ".certfile") in
  let keyFile := viper.GetString v ("tls." +:+ tlsName +:+ ".keyfile") in
  let caFile := viper.GetString v ("tls." +:+ tlsName +:+ ".cafile") in
  viper.IsSet v (root +:+ ".tls") = true →
  certFile ≠ "" →
  keyFile ≠ "" →
  (caFile ≠ "" → ∀ err,
     LoadX509KeyPair certFile keyFile = inr err → panics (build' name v))
  ∧ (caFile ≠ "" → ∀ cert cfg,
       LoadX509KeyPair certFile keyFile = inl cert →
       build' name v = Ok cfg →
       Certificates <$> TLS_Config (TLS (Net cfg)) = Some [cert])
  ∧ (caFile = "" → ∀ cfg,
       build' name v = Ok cfg →
       Certificates <$> TLS_Config (TLS (Net cfg)) = Some []).
Proof.
  intros root tlsName certFile keyFile caFile Hset Hcert Hkey.
  apply String.eqb_neq in Hcert, Hkey. split_and!.
  - intros Hca%String.eqb_neq err Hload. rewrite build_eq. fold root.
    case_match; [by eexists|].
    unfold assemble. apply bind_panics_Ok; intros version _.
    apply bind_panics_l. unfold configureTLS. cbv zeta. reads_of_input.
    fold tlsName certFile keyFile caFile.
    rewrite Hset, Hca, Hcert, Hkey, Hload. cbn [negb andb].
    destruct (ReadFile caFile); by eexists.
  - intros Hca%String.eqb_neq cert cfg Hload
      (version & c1 & Htls & ->)%build_Ok_TLS.
    fold root in Htls. unfold configureTLS in Htls. cbv zeta in Htls. reads_of_input.
    fold tlsName certFile keyFile caFile in Htls.
    rewrite Hset, Hca, Hcert, Hkey, Hload in Htls. cbn [negb andb] in Htls.
    destruct (ReadFile caFile); [|done].
    cbn in Htls. by injection Htls as <-.
  - intros Hca cfg (version & c1 & Htls & ->)%build_Ok_TLS.
    fold root in Htls. unfold configureTLS in Htls. cbv zeta in Htls. reads_of_input.
    fold tlsName caFile in Htls. rewrite Hset, Hca in Htls.
    cbn in Htls. by injection Htls as <-.
Qed.

Lemma configureTLS_loads v root c :
  tlsMaterialLoads ReadFile LoadX509KeyPair v
    (viper.GetString v (root +:+ ".tls")) = true →
  ∃ c1, configureTLS' v root c = Ok c1.
Proof.
  unfold tlsMaterialLoads, configureTLS. cbv zeta. intros Hloads.
  repeat case_match; try done; cbn [mbind outcome_bind bind]; by eexists.
Qed.

(** C6, amended. When the profile is known, its version string resolves,
    it names a TLS sub-profile whose files load, and it names an iam
    sub-profile with a region, the builder returns a configuration; that
    configuration has SASL enabled with handshake-first set, the OAuth
    mechanism and a token provider made of the sub-profile's region, role
    and local profile name. *)
Theorem iam_with_tls_builds name v :
  let root := "client-profile." +:+ name in
  let tlsName := viper.GetString v (root +:+ ".tls") in
  let iamName := viper.GetString v (root +:+ ".iam") in
  let iamRoot := "iam." +:+ iamName in
  profileKnown name v = true →
  succeeds (parseKafkaVersion ParseKafkaVersion (profileVersion name v))
    = true →
  viper.IsSet v (root +:+ ".tls") = true →
  tlsMaterialLoads ReadFile LoadX509KeyPair v tlsName = true →
  iamName ≠ "" →
  viper.GetString v (iamRoot +:+ ".region") ≠ "" →
  ∃ cfg,
    build' name v = Ok cfg
    ∧ SASL_Enable (SASL (Net cfg)) = true
    ∧ Handshake (SASL (Net cfg)) = true
    ∧ Mechanism (SASL (Net cfg)) = SASLTypeOAuth
    ∧ TokenProvider (SASL (Net cfg)) =
        Some {| region := viper.GetString v (iamRoot +:+ ".region");
                roleArn := viper.GetString v (iamRoot +:+ ".role-arn");
                profile := viper.GetString v (iamRoot +:+ ".profile") |}.
Proof.
  intros root tlsName iamName iamRoot Hknown Hver Hset Hloads Hiam Hregion.
  rewrite build_eq. fold root.
  unfold profileKnown in Hknown. fold root in Hknown.
  rewrite <- negb_orb, Hknown. cbn [negb].
  unfold assemble. unfold profileVersion in Hver. fold root in Hver.
  destruct (parseKafkaVersion _ _) as [version|]; [|done]. cbn [mbind outcome_bind bind].
  destruct (configureTLS_loads (setDefaults root v) root
              (seeded NewConfig (setDefaults root v) root version)) as [c1 Htls].
  { unfold tlsMaterialLoads in *. cbv zeta in *. reads_of_input. exact Hloads. }
  unfold seeded in Htls. rewrite Htls. cbn [mbind outcome_bind bind].
  unfold configureIAM. cbv zeta. reads_of_input. fold iamName iamRoot.
  apply String.eqb_neq in Hiam, Hregion. rewrite Hiam, Hregion.
  rewrite configureSASL_TLS, (configureTLS_Enable _ _ _ _ Htls).
  reads_of_input. rewrite Hset. cbn [negb].
  eexists. split; [reflexivity|].
  by rewrite !configureTimeouts_SASL.
Qed.

(** *** Building twice *)

(** C9. Building a profile again, in the registry the first build left
    behind (its defaults registered), has the outcome of the first build
    and leaves the registry as it is. *)
Theorem build_twice name v :
  let first :=
    GetSaramaConfigFromClientProfile ParseKafkaVersion NewConfig ReadFile
      NewCertPool AppendCertsFromPEM LoadX509KeyPair name v in
  let second :=
    GetSaramaConfigFromClientProfile ParseKafkaVersion NewConfig ReadFile
      NewCertPool AppendCertsFromPEM LoadX509KeyPair name first.1 in
  second.2 = first.2 ∧ second.1 = first.1.
Proof.
  cbv zeta. unfold GetSaramaConfigFromClientProfile. cbv zeta.
  destruct (negb (name =? "")%string
            && negb (viper.IsSet v ("client-profile." +:+ name))) eqn:Hchk;
    cbn [fst snd].
  - by rewrite Hchk.
  - by rewrite IsSet_setDefaults_root, andb_false_r, setDefaults_idem.
Qed.
(** *** What the blocks leave alone, continued *)

Lemma configureTLS_rest v root c c' :
  configureTLS' v root c = Ok c' →
  ClientID c' = ClientID c ∧ Version c' = Version c
  ∧ Consumer_Return_Errors c' = Consumer_Return_Errors c
  ∧ DialTimeout (Net c') = DialTimeout (Net c)
  ∧ ReadTimeout (Net c') = ReadTimeout (Net c).
Proof.
  unfold configureTLS. case_match; [|by intros [= <-]].
  intros (c1 & Hc1 & [= <-])%bind_Ok. cbv zeta in Hc1.
  repeat case_match; simplify_eq/=; done.
Qed.

Lemma configureSASL_rest v root (c : Config CertPool Certificate) :
  let c' := configureSASL v root c in
  ClientID c' = ClientID c ∧ Version c' = Version c
  ∧ Consumer_Return_Errors c' = Consumer_Return_Errors c
  ∧ DialTimeout (Net c') = DialTimeout (Net c)
  ∧ ReadTimeout (Net c') = ReadTimeout (Net c).
Proof. unfold configureSASL. cbv zeta. by repeat case_match. Qed.

Lemma configureIAM_rest v name root (c c' : Config CertPool Certificate) :
  configureIAM v name root c = Ok c' →
  ClientID c' = ClientID c ∧ Version c' = Version c
  ∧ Consumer_Return_Errors c' = Consumer_Return_Errors c
  ∧ DialTimeout (Net c') = DialTimeout (Net c)
  ∧ ReadTimeout (Net c') = ReadTimeout (Net c).
Proof. unfold configureIAM. cbv zeta. repeat case_match; by intros [= <-]. Qed.




(** *** Identity of the client *)


(** *** Timeouts *)

(** X2. The dial and read timeouts of a returned configuration are the
    profile's number of seconds, multiplied by [time.Second] in [int64]
    arithmetic, when the profile sets the key, and those of the fresh
    configuration when it does not. *)
Theorem timeouts_from_profile name v cfg :
  let root := "client-profile." +:+ name in
  build' name v = Ok cfg →
  DialTimeout (Net cfg) =
    (if viper.IsSet v (root +:+ ".dial-timeout")
     then wrap64 (viper.GetInt v (root +:+ ".dial-timeout") * Second)
     else DialTimeout (Net NewConfig))
  ∧ ReadTimeout (Net cfg) =
    (if viper.IsSet v (root +:+ ".read-timeout")
     then wrap64 (viper.GetInt v (root +:+ ".read-timeout") * Second)
     else ReadTimeout (Net NewConfig)).
Proof.
  intros root (version & c1 & c3 & _ & Htls & Hiam & ->)%build_Ok_inv.
  subst root.
  destruct (configureIAM_rest _ _ _ _ _ Hiam) as (_ & _ & _ & Hd3 & Hr3).
  destruct (configureSASL_rest
              (setDefaults ("client-profile." +:+ name) v)
              ("client-profile." +:+ name) c1) as (_ & _ & _ & Hd2 & Hr2).
  destruct (configureTLS_rest _ _ _ _ Htls) as (_ & _ & _ & Hd1 & Hr1).
  cbv zeta in Hd2, Hr2. rewrite Hd2, Hd1 in Hd3. rewrite Hr2, Hr1 in Hr3.
  cbn in Hd3, Hr3. unfold configureTimeouts. cbv zeta. reads_of_input.
  repeat case_match; cbn; by rewrite ?Hd3, ?Hr3.
Qed.
(** *** When the builder returns *)

Lemma configureTLS_succeeds v root c :
  succeeds (configureTLS' v root c) =
    if viper.IsSet v (root +:+ ".tls")
    then tlsMaterialLoads ReadFile LoadX509KeyPair v
           (viper.GetString v (root +:+ ".tls"))
    else true.
Proof.
  unfold tlsMaterialLoads, configureTLS. cbv zeta.
  repeat case_match; done.
Qed.

Lemma configureIAM_succeeds v name root (c : Config CertPool Certificate) :
  succeeds (configureIAM v name root c) =
    if String.eqb (viper.GetString v (root +:+ ".iam")) "" then true
    else negb (String.eqb
                 (viper.GetString v
                    (("iam." +:+ viper.GetString v (root +:+ ".iam"))
                     +:+ ".region")) "")
         && TLS_Enable (TLS (Net c)).
Proof.
  unfold configureIAM. cbv zeta.
  repeat case_match; try done; by destruct (TLS_Enable _).
Qed.

Lemma succeeds_bind_Ok {A B} (x : outcome A) (f : A → B) :
  succeeds (x ≫= λ a, Ok (f a)) = succeeds x.
Proof. by destruct x. Qed.

(** X3. The builder returns a configuration exactly when the profile is
    known (or unnamed), its version string resolves, the files of its TLS
    sub-profile (if it names one) load, and its iam sub-profile (if it names
    one) has a region and comes with TLS; otherwise it panics. *)
Theorem build_succeeds_iff name v :
  succeeds (build' name v) =
    buildable ParseKafkaVersion NewConfig ReadFile LoadX509KeyPair name v.
Proof.
  rewrite build_eq. unfold buildable, profileKnown, profileVersion.
  cbv zeta. set (root := "client-profile." +:+ name).
  rewrite <- negb_orb.
  destruct (String.eqb name "" || viper.IsSet v root); cbn [negb andb]; [|done].
  unfold assemble.
  destruct (parseKafkaVersion _ _) as [version|]; cbn [mbind outcome_bind bind];
    [|done].
  cbn [succeeds andb].
  pose proof (configureTLS_succeeds (setDefaults root v) root
                (seeded NewConfig (setDefaults root v) root version)) as Htls.
  unfold seeded in Htls.
  destruct (configureTLS' (setDefaults root v) root _) as [c1|] eqn:Hc1;
    cbn [mbind outcome_bind bind succeeds] in Htls |- *.
  - rewrite succeeds_bind_Ok, configureIAM_succeeds.
    rewrite configureSASL_TLS, (configureTLS_Enable _ _ _ _ Hc1).
    unfold tlsMaterialLoads in *. cbv zeta in *. reads_of_input.
    rewrite <- Htls. cbn [andb TLS_Enable TLS Net set_Consumer_Return_Errors
      set_Version set_ClientID].
    by destruct (viper.IsSet v (root +:+ ".tls")).
  - unfold tlsMaterialLoads in *. cbv zeta in *. reads_of_input.
    by rewrite <- Htls.
Qed.

(** X4. The conversion of a number of seconds to a duration is exact for up
    to 9223372036 seconds in either direction, and always yields a value of
    the [int64] range. *)
Theorem seconds_duration_exact (n : Z) :
  (-9223372036 ≤ n ≤ 9223372036 → wrap64 (n * Second) = n * Second)
  ∧ - 2 ^ 63 ≤ wrap64 (n * Second) < 2 ^ 63.
Proof.
  unfold wrap64, Second. split.
  - intros Hn. rewrite Z.mod_small; lia.
  - pose proof (Z.mod_pos_bound (n * 1000000000 + 2 ^ 63) (2 ^ 64)). lia.
Qed.

(** *** The TLS block, continued *)

(** X5. When the profile sets no tls key, a returned configuration has the
    TLS settings of the fresh configuration, whatever tls sub-profiles the
    registry holds. *)
Theorem tls_untouched_without_key name v cfg :
  let root := "client-profile." +:+ name in
  viper.IsSet v (root +:+ ".tls") = false →
  build' name v = Ok cfg →
  TLS (Net cfg) = TLS (Net NewConfig).
Proof.
  intros root Hset (version & c1 & Htls & ->)%build_Ok_TLS.
  fold root in Htls. unfold configureTLS in Htls. cbv zeta in Htls.
  reads_of_input. rewrite Hset in Htls. by injection Htls as <-.
Qed.

(** X6. When the profile names a TLS sub-profile that gives a CA bundle
    path, a returned configuration has TLS enabled, its root pool is a new
    pool to which the contents of that file were appended, it carries the
    sub-profile's [noverify] flag, and it has no certificate when the
    certificate path or the key path is missing. *)
Theorem tls_with_ca_bundle name v cfg :
  let root := "client-profile." +:+ name in
  let tlsName := viper.GetString v (root +:+ ".tls") in
  let certFile := viper.GetString v ("tls." +:+ tlsName +:+ ".certfile") in
  let keyFile := viper.GetString v ("tls." +:+ tlsName +:+ ".keyfile") in
  let caFile := viper.GetString v ("tls." +:+ tlsName +:+ ".cafile") in
  viper.IsSet v (root +:+ ".tls") = true →
  caFile ≠ "" →
  build' name v = Ok cfg →
  ∃ caCert tlsConfig,
    ReadFile caFile = inl caCert
    ∧ TLS (Net cfg) = {| TLS_Enable := true; TLS_Config := Some tlsConfig |}
    ∧ RootCAs tlsConfig = Some (AppendCertsFromPEM NewCertPool caCert)
    ∧ InsecureSkipVerify tlsConfig =
        viper.GetBool v ("tls." +:+ tlsName +:+ ".noverify")
    ∧ (certFile = "" ∨ keyFile = "" → Certificates tlsConfig = []).
Proof.
  intros root tlsName certFile keyFile caFile Hset Hca%String.eqb_neq
    (version & c1 & Htls & ->)%build_Ok_TLS.
  fold root in Htls. unfold configureTLS in Htls. cbv zeta in Htls.
  reads_of_input. fold tlsName certFile keyFile caFile in Htls.
  rewrite Hset, Hca in Htls.
  destruct (ReadFile caFile) as [caCert|]; [|done]. exists caCert.
  destruct (String.eqb_spec certFile ""), (String.eqb_spec keyFile "");
    cbn [negb andb] in Htls;
    try (cbn in Htls; injection Htls as <-; eexists; split_and!;
         [done..|by intros]).
  destruct (LoadX509KeyPair certFile keyFile); [|done].
  cbn in Htls. injection Htls as <-. eexists. split_and!; [done..|].
  by intros [?|?].
Qed.

(** X7. When the profile is known, its version string resolves and it names
    a TLS sub-profile whose CA bundle cannot be read, the builder panics
    with the error of the read. *)
Theorem ca_bundle_unreadable name v err :
  let root := "client-profile." +:+ name in
  let tlsName := viper.GetString v (root +:+ ".tls") in
  let caFile := viper.GetString v ("tls." +:+ tlsName +:+ ".cafile") in
  profileKnown name v = true →
  succeeds (parseKafkaVersion ParseKafkaVersion (profileVersion name v))
    = true →
  viper.IsSet v (root +:+ ".tls") = true →
  caFile ≠ "" →
  ReadFile caFile = inr err →
  build' name v = Panic ("cannot read TLS CA file: " +:+ err).
Proof.
  intros root tlsName caFile Hknown Hver Hset Hca%String.eqb_neq Hread.
  rewrite build_eq. fold root.
  unfold profileKnown in Hknown. fold root in Hknown.
  rewrite <- negb_orb, Hknown. cbn [negb].
  unfold assemble. unfold profileVersion in Hver. fold root in Hver.
  destruct (parseKafkaVersion _ _) as [version|]; [|done].
  cbn [mbind outcome_bind bind].
  unfold configureTLS. cbv zeta. reads_of_input. fold tlsName caFile.
  by rewrite Hset, Hca, Hread.
Qed.
(** *** The SASL settings *)

(** X8. When the profile sets the sasl key, a returned configuration has
    SASL enabled with the sub-profile's username and password; the client
    generator follows the sub-profile's mechanism (SHA-256, SHA-512, or that
    of the fresh configuration); the mechanism and the handshake-first flag
    follow the sub-profile too unless an iam sub-profile is named, which
    sets OAuth, handshake-first and the token provider. *)
Theorem sasl_settings name v cfg :
  let root := "client-profile." +:+ name in
  let saslName := viper.GetString v (root +:+ ".sasl") in
  let mechanism := viper.GetString v ("sasl." +:+ saslName +:+ ".mechanism") in
  let iamName := viper.GetString v (root +:+ ".iam") in
  let iamRoot := "iam." +:+ iamName in
  let fresh := SASL (Net NewConfig) in
  viper.IsSet v (root +:+ ".sasl") = true →
  build' name v = Ok cfg →
  SASL (Net cfg) =
    {| SASL_Enable := true;
       Mechanism :=
         if negb (String.eqb iamName "") then SASLTypeOAuth
         else if String.eqb mechanism "SCRAM-SHA-256" then SASLTypeSCRAMSHA256
         else if String.eqb mechanism "SCRAM-SHA-512" then SASLTypeSCRAMSHA512
         else Mechanism fresh;
       SCRAMClientGeneratorFunc :=
         if String.eqb mechanism "SCRAM-SHA-256"
         then Some {| HashGeneratorFcn := SHA256 |}
         else if String.eqb mechanism "SCRAM-SHA-512"
         then Some {| HashGeneratorFcn := SHA512 |}
         else SCRAMClientGeneratorFunc fresh;
       Handshake :=
         if negb (String.eqb iamName "") then true
         else viper.GetBool v ("sasl." +:+ saslName +:+ ".handshake-first");
       User := viper.GetString v ("sasl." +:+ saslName +:+ ".username");
       Password := viper.GetString v ("sasl." +:+ saslName +:+ ".password");
       TokenProvider :=
         if negb (String.eqb iamName "")
         then Some {| region := viper.GetString v (iamRoot +:+ ".region");
                      roleArn := viper.GetString v (iamRoot +:+ ".role-arn");
                      profile := viper.GetString v (iamRoot +:+ ".profile") |}
         else TokenProvider fresh |}.
Proof.
  intros root saslName mechanism iamName iamRoot fresh Hsasl
    (c1 & c3 & Hc1 & Hc3 & ->)%build_Ok_SASL.
  fold root in Hc3. unfold configureIAM in Hc3. cbv zeta in Hc3.
  reads_of_input. fold iamName iamRoot in Hc3.
  assert (SASL (Net (configureSASL (setDefaults root v) root c1)) =
    {| SASL_Enable := true;
       Mechanism :=
         if String.eqb mechanism "SCRAM-SHA-256" then SASLTypeSCRAMSHA256
         else if String.eqb mechanism "SCRAM-SHA-512" then SASLTypeSCRAMSHA512
         else Mechanism fresh;
       SCRAMClientGeneratorFunc :=
         if String.eqb mechanism "SCRAM-SHA-256"
         then Some {| HashGeneratorFcn := SHA256 |}
         else if String.eqb mechanism "SCRAM-SHA-512"
         then Some {| HashGeneratorFcn := SHA512 |}
         else SCRAMClientGeneratorFunc fresh;
       Handshake :=
         viper.GetBool v ("sasl." +:+ saslName +:+ ".handshake-first");
       User := viper.GetString v ("sasl." +:+ saslName +:+ ".username");
       Password := viper.GetString v ("sasl." +:+ saslName +:+ ".password");
       TokenProvider := TokenProvider fresh |}) as Hsaslblock.
  { unfold configureSASL. cbv zeta. reads_of_input.
    fold saslName mechanism. rewrite Hsasl. subst fresh.
    repeat case_match; cbn; by rewrite Hc1. }
  set (c2 := configureSASL (setDefaults root v) root c1) in *.
  clearbody c2. destruct c2 as [[t sa d r] ? ? ?].
  cbn [SASL Net] in Hsaslblock. subst sa.
  destruct (String.eqb iamName ""); cbn [negb] in Hc3 |- *.
  - by injection Hc3 as <-.
  - destruct (String.eqb _ "") in Hc3; [done|].
    destruct (negb _) in Hc3; [done|]. by injection Hc3 as <-.
Qed.

(** X9. When the profile sets no sasl key, a returned configuration has the
    SASL settings of the fresh configuration, except that a named iam
    sub-profile enables SASL with handshake-first, the OAuth mechanism and
    its token provider. *)
Theorem sasl_settings_without_key name v cfg :
  let root := "client-profile." +:+ name in
  let iamName := viper.GetString v (root +:+ ".iam") in
  let iamRoot := "iam." +:+ iamName in
  let fresh := SASL (Net NewConfig) in
  viper.IsSet v (root +:+ ".sasl") = false →
  build' name v = Ok cfg →
  SASL (Net cfg) =
    if String.eqb iamName "" then fresh
    else
      {| SASL_Enable := true;
         Mechanism := SASLTypeOAuth;
         SCRAMClientGeneratorFunc := SCRAMClientGeneratorFunc fresh;
         Handshake := true;
         User := User fresh;
         Password := Password fresh;
         TokenProvider :=
           Some {| region := viper.GetString v (iamRoot +:+ ".region");
                   roleArn := viper.GetString v (iamRoot +:+ ".role-arn");
                   profile := viper.GetString v (iamRoot +:+ ".profile") |} |}.
Proof.
  intros root iamName iamRoot fresh Hsasl
    (c1 & c3 & Hc1 & Hc3 & ->)%build_Ok_SASL.
  fold root in Hc3. unfold configureIAM, configureSASL in Hc3.
  cbv zeta in Hc3. reads_of_input. fold iamName iamRoot in Hc3.
  rewrite Hsasl in Hc3.
  destruct (String.eqb iamName ""); cbn [negb] in Hc3.
  - by injection Hc3 as <-.
  - repeat case_match; try done. injection Hc3 as <-.
    cbn. by rewrite Hc1.
Qed.

(** *** The panics of the later checks *)

(** X10. For a known profile whose version string resolves and whose TLS
    files (if any) load, naming an iam sub-profile: without a region the
    builder panics with the region message, also when TLS is missing too;
    with a region but without a tls key (a fresh configuration having TLS
    disabled) it panics with the message that names the profile and the
    sub-profile. *)
Theorem iam_panic_messages name v :
  let root := "client-profile." +:+ name in
  let tlsName := viper.GetString v (root +:+ ".tls") in
  let iamName := viper.GetString v (root +:+ ".iam") in
  let iamRoot := "iam." +:+ iamName in
  profileKnown name v = true →
  succeeds (parseKafkaVersion ParseKafkaVersion (profileVersion name v))
    = true →
  (if viper.IsSet v (root +:+ ".tls")
   then tlsMaterialLoads ReadFile LoadX509KeyPair v tlsName else true)
    = true →
  iamName ≠ "" →
  (viper.GetString v (iamRoot +:+ ".region") = "" →
     build' name v = Panic ("iam." +:+ iamName +:+ ": region is required"))
  ∧ (viper.GetString v (iamRoot +:+ ".region") ≠ "" →
     viper.IsSet v (root +:+ ".tls") = false →
     TLS_Enable (TLS (Net NewConfig)) = false →
     build' name v =
       Panic ("client-profile " +:+ name +:+ " uses iam." +:+ iamName
              +:+ " but has no tls profile")).
Proof.
  intros root tlsName iamName iamRoot Hknown Hver Hloads Hiam%String.eqb_neq.
  rewrite build_eq. fold root.
  unfold profileKnown in Hknown. fold root in Hknown.
  rewrite <- negb_orb, Hknown. cbn [negb].
  unfold assemble. unfold profileVersion in Hver. fold root in Hver.
  destruct (parseKafkaVersion _ _) as [version|]; [|done].
  cbn [mbind outcome_bind bind].
  pose proof (configureTLS_succeeds (setDefaults root v) root
                (seeded NewConfig (setDefaults root v) root version)) as Htls.
  unfold seeded, tlsMaterialLoads in Htls, Hloads. cbv zeta in Htls, Hloads.
  reads_of_input. fold tlsName in Htls. rewrite Hloads in Htls.
  destruct (configureTLS' (setDefaults root v) root _) as [c1|] eqn:Hc1;
    [|done].
  cbn [mbind outcome_bind bind]. unfold configureIAM. cbv zeta.
  reads_of_input. fold iamName iamRoot. rewrite Hiam. cbn [negb]. split.
  - by intros ->.
  - intros Hregion%String.eqb_neq Hset Hfresh. rewrite Hregion.
    rewrite configureSASL_TLS, (configureTLS_Enable _ _ _ _ Hc1).
    reads_of_input. rewrite Hset. cbn. by rewrite Hfresh.
Qed.

(** X11. For a known profile whose version string is rejected by the strict
    parser and is no key of the fallback table, the builder panics with the
    unknown-version message, whatever else the profile holds. *)
Theorem unknown_version_message name v :
  let s := profileVersion name v in
  profileKnown name v = true →
  rejects ParseKafkaVersion s →
  legacyKafkaVersionFallback !! s = None →
  build' name v = Panic ("Unknown Kafka Version: " +:+ s).
Proof.
  intros s Hknown [err Hrej] Hnone.
  apply build_unknown_version; [done|]. fold s.
  unfold parseKafkaVersion. by rewrite Hrej, Hnone.
Qed.

(** *** The versions of the fallback table *)

(** X12. A version the resolver takes from the fallback table is never older
    than 0.8.2.0 nor newer than 0.11.0.0. *)
Theorem fallback_versions_supported s version :
  rejects ParseKafkaVersion s →
  parseKafkaVersion ParseKafkaVersion s = Ok version →
  IsAtLeast version V0_8_2_0 = true ∧ IsAtLeast V0_11_0_0 version = true.
Proof.
  intros [err Hrej]. unfold parseKafkaVersion. rewrite Hrej.
  destruct (legacyKafkaVersionFallback !! s) as [version'|] eqn:Hs; [|done].
  intros [= ->]. unfold legacyKafkaVersionFallback in Hs.
  apply elem_of_list_to_map_2 in Hs.
  repeat (apply elem_of_cons in Hs as [[= -> ->]|Hs]); [by vm_compute..|].
  by apply elem_of_nil in Hs.
Qed.
(** *** The registry left behind *)

End BuilderFacts.

(** ** The client shim *)

Section ShimFacts.
Context {Broker : Type}.

Local Abbreviation shim := (λ b : Broker, Some {| broker := b |}).

Lemma Brokers_loop (done rest : list Broker) :
  foldl (λ '(i, shimBrokers) broker,
           (S i, <[i := shim broker]> shimBrokers))
        (length done, (shim <$> done) ++ replicate (length rest) None) rest
  = (length (done ++ rest), shim <$> (done ++ rest)).
Proof.
  revert done. induction rest as [|b rest IH]; intros done.
  - cbn. by rewrite !app_nil_r.
  - cbn [foldl length replicate].
    replace (<[length done := shim b]>
               ((shim <$> done) ++ None :: replicate (length rest) None))
      with ((shim <$> (done ++ [b])) ++ replicate (length rest) None).
    + replace (S (length done)) with (length (done ++ [b]))
        by (rewrite length_app; cbn; lia).
      rewrite IH. by rewrite <- !app_assoc.
    + rewrite fmap_app, <- app_assoc. cbn.
      rewrite insert_app_r_alt by (rewrite length_fmap; lia).
      rewrite length_fmap, Nat.sub_diag. done.
Qed.

(** X13. [Brokers] hands out one shim for every broker of the client, in
    the client's order, each wrapping the broker at its position: the list
    has the client's length and holds no nil entry. *)
Theorem Brokers_shims (c : BurrowSaramaClient Broker) :
  Brokers c = shim <$> Client_Brokers (Client c)
  ∧ length (Brokers c) = length (Client_Brokers (Client c))
  ∧ None ∉ Brokers c.
Proof.
  assert (Brokers c = shim <$> Client_Brokers (Client c)) as Heq.
  { pose proof (Brokers_loop [] (Client_Brokers (Client c))) as Hloop.
    unfold Brokers. cbv zeta. change (0%nat) with (length (@nil Broker)).
    change (replicate (length (Client_Brokers (Client c))) None)
      with ((shim <$> []) ++
            replicate (length (Client_Brokers (Client c))) None).
    by rewrite Hloop. }
  rewrite Heq. split_and!; [done | by rewrite length_fmap |].
  intros (b & ? & _)%list_elem_of_fmap. done.
Qed.
End ShimFacts.

(** ** The statements on concrete registries *)

Ltac solve_elem_of :=
  repeat first [ by apply elem_of_cons; left | apply elem_of_cons; right ].

Lemma legacy_keys_resolve_witness :
  parseKafkaVersion Env.ParseKafkaVersion "0.8.1"
    = Ok (newKafkaVersion 0 8 2 1)
  ∧ parseKafkaVersion Env.ParseKafkaVersion ""
    = Ok (newKafkaVersion 0 10 2 0).
Proof.
  split; apply legacy_keys_resolve;
    [ eexists; reflexivity | solve_elem_of
    | eexists; reflexivity | solve_elem_of ].
Defined.

Lemma iam_requires_region_and_tls_witness :
  panics (Env.build "msk-iam" Env.iam_only)
  ∧ panics (Env.build "msk-iam" Env.iam_no_tls).
Proof.
  split; apply (iam_requires_region_and_tls (H := Env.cast)).
  - reflexivity.
  - vm_compute. discriminate.
  - left. vm_compute. reflexivity.
  - reflexivity.
  - vm_compute. discriminate.
  - right. vm_compute. reflexivity.
Defined.

Lemma tls_without_ca_bundle_witness :
  ∃ cfg,
    Env.build "secure" Env.tls_no_ca = Ok cfg
    ∧ TLS (Net cfg) =
        {| TLS_Enable := true;
           TLS_Config := Some {| RootCAs := None; Certificates := [];
                                 InsecureSkipVerify := true |} |}.
Proof.
  eexists. split; [vm_compute; reflexivity|].
  apply (tls_without_ca_bundle (H := Env.cast) Env.ParseKafkaVersion
           Env.NewConfig Env.ReadFile Env.NewCertPool Env.AppendCertsFromPEM
           Env.LoadX509KeyPair "secure" Env.tls_no_ca);
    vm_compute; reflexivity.
Defined.

Lemma iam_overrides_sasl_witness :
  ∃ cfg,
    Env.build "msk-iam" (Env.msk "SCRAM-SHA-512") = Ok cfg
    ∧ SASL_Enable (SASL (Net cfg)) = true
    ∧ Mechanism (SASL (Net cfg)) = "OAUTHBEARER"
    ∧ Handshake (SASL (Net cfg)) = true
    ∧ User (SASL (Net cfg)) = "burrow"
    ∧ Password (SASL (Net cfg)) = "secret".
Proof.
  eexists. split; [vm_compute; reflexivity|].
  apply (iam_overrides_sasl (H := Env.cast) Env.ParseKafkaVersion
           Env.NewConfig Env.ReadFile Env.NewCertPool Env.AppendCertsFromPEM
           Env.LoadX509KeyPair "msk-iam" (Env.msk "SCRAM-SHA-512")).
  - vm_compute. reflexivity.
  - vm_compute. discriminate.
  - vm_compute. reflexivity.
Defined.

(** C8, as stated, fails when the profile also names an iam sub-profile: the
    mechanism of the sasl sub-profile is not recognized, yet the returned
    configuration has the OAuth mechanism, which the fresh configuration
    does not have, and handshake-first set, which the sub-profile does not
    ask for. *)
Lemma sasl_unrecognized_mechanism_with_iam :
  viper.IsSet (Env.msk "PLAIN") "client-profile.msk-iam.sasl" = true
  ∧ viper.GetString (H := Env.cast) (Env.msk "PLAIN") "sasl.scram.mechanism"
    = "PLAIN"
  ∧ viper.GetBool (H := Env.cast) (Env.msk "PLAIN")
      "sasl.scram.handshake-first" = false
  ∧ ∃ cfg,
      Env.build "msk-iam" (Env.msk "PLAIN") = Ok cfg
      ∧ Mechanism (SASL (Net cfg)) = SASLTypeOAuth
      ∧ Mechanism (SASL (Net cfg)) ≠ Mechanism (SASL (Net Env.NewConfig))
      ∧ Handshake (SASL (Net cfg)) = true.
Proof.
  cbv zeta. split_and!; [by vm_compute..|].
  eexists. split; [vm_compute; reflexivity|]. by vm_compute.
Qed.

Lemma sasl_unrecognized_mechanism_witness :
  ∃ cfg,
    Env.build "legacy" Env.sasl_plain = Ok cfg
    ∧ SASL (Net cfg) =
        {| SASL_Enable := true; Mechanism := "";
           SCRAMClientGeneratorFunc := None; Handshake := false;
           User := "burrow"; Password := "secret"; TokenProvider := None |}.
Proof.
  eexists. split; [vm_compute; reflexivity|].
  apply (sasl_unrecognized_mechanism (H := Env.cast) Env.ParseKafkaVersion
           Env.NewConfig Env.ReadFile Env.NewCertPool Env.AppendCertsFromPEM
           Env.LoadX509KeyPair "legacy" Env.sasl_plain).
  - vm_compute. reflexivity.
  - vm_compute. discriminate.
  - vm_compute. discriminate.
  - vm_compute. reflexivity.
  - vm_compute. reflexivity.
Defined.

(** C2, as stated, fails when no CA bundle path is given: the sub-profile
    gives a certificate file and a key file that load, yet the returned
    configuration carries no certificate. *)
Lemma keypair_ignored_without_ca_bundle :
  viper.IsSet Env.tls_no_ca "client-profile.secure.tls" = true
  ∧ viper.GetString (H := Env.cast) Env.tls_no_ca "tls.mutual.certfile"
    = "/etc/burrow/cert.pem"
  ∧ viper.GetString (H := Env.cast) Env.tls_no_ca "tls.mutual.keyfile"
    = "/etc/burrow/key.pem"
  ∧ viper.GetString (H := Env.cast) Env.tls_no_ca "tls.mutual.cafile" = ""
  ∧ Env.LoadX509KeyPair "/etc/burrow/cert.pem" "/etc/burrow/key.pem"
    = inl ("CERT", "KEY")
  ∧ ∃ cfg,
      Env.build "secure" Env.tls_no_ca = Ok cfg
      ∧ Certificates <$> TLS_Config (TLS (Net cfg)) = Some [].
Proof.
  cbv zeta. split_and!; [by vm_compute..|].
  eexists. split; [vm_compute; reflexivity|]. by vm_compute.
Qed.

Lemma keypair_loaded_with_ca_bundle_witness :
  ∃ cfg,
    Env.build "secure" Env.tls_with_ca = Ok cfg
    ∧ Certificates <$> TLS_Config (TLS (Net cfg)) = Some [("CERT", "KEY")].
Proof.
  eexists. split; [vm_compute; reflexivity|].
  destruct (keypair_loaded_with_ca_bundle (H := Env.cast)
              Env.ParseKafkaVersion Env.NewConfig Env.ReadFile
              Env.NewCertPool Env.AppendCertsFromPEM Env.LoadX509KeyPair
              "secure" Env.tls_with_ca) as (_ & Hloaded & _).
  - vm_compute. reflexivity.
  - vm_compute. discriminate.
  - vm_compute. discriminate.
  - apply Hloaded.
    + vm_compute. discriminate.
    + vm_compute. reflexivity.
    + vm_compute. reflexivity.
Defined.

(** C6, as stated, fails when another setting of the profile is invalid: the
    profile names a TLS sub-profile and an iam sub-profile with a region,
    and the builder panics on its version string. *)
Lemma iam_with_tls_unknown_version :
  viper.IsSet Env.msk_bad_version "client-profile.msk-iam.tls" = true
  ∧ viper.GetString (H := Env.cast) Env.msk_bad_version
      "client-profile.msk-iam.iam" = "eks"
  ∧ viper.GetString (H := Env.cast) Env.msk_bad_version "iam.eks.region"
    = "us-west-1"
  ∧ Env.build "msk-iam" Env.msk_bad_version
    = Panic "Unknown Kafka Version: bogus".
Proof. cbv zeta. split_and!; by vm_compute. Qed.

Lemma iam_with_tls_builds_witness :
  ∃ cfg,
    Env.build "msk-iam" (Env.msk "SCRAM-SHA-256") = Ok cfg
    ∧ SASL_Enable (SASL (Net cfg)) = true
    ∧ Handshake (SASL (Net cfg)) = true
    ∧ Mechanism (SASL (Net cfg)) = "OAUTHBEARER"
    ∧ TokenProvider (SASL (Net cfg)) =
        Some {| region := "us-west-1"; roleArn := ""; profile := "" |}.
Proof.
  apply (iam_with_tls_builds (H := Env.cast) Env.ParseKafkaVersion
           Env.NewConfig Env.ReadFile Env.NewCertPool Env.AppendCertsFromPEM
           Env.LoadX509KeyPair "msk-iam" (Env.msk "SCRAM-SHA-256")).
  - vm_compute. reflexivity.
  - vm_compute. reflexivity.
  - vm_compute. reflexivity.
  - vm_compute. reflexivity.
  - vm_compute. discriminate.
  - vm_compute. discriminate.
Defined.

(** ** The scenarios of the sample configuration *)

Example sample_profile :
  ∃ cfg, Env.build "test" Env.sample = Ok cfg
    ∧ ClientID cfg = "burrow-test"
    ∧ Version cfg = V0_10_0_0
    ∧ Consumer_Return_Errors cfg = true
    ∧ TLS_Enable (TLS (Net cfg)) = false
    ∧ SASL_Enable (SASL (Net cfg)) = false.
Proof. eexists. by vm_compute. Qed.

Example unknown_profile :
  Env.build "missing" Env.sample = Panic "unknown client-profile 'missing'".
Proof. by vm_compute. Qed.

Example iam_without_tls :
  Env.build "msk-iam" Env.iam_no_tls
  = Panic "client-profile msk-iam uses iam.eks but has no tls profile".
Proof. by vm_compute. Qed.

(** ** Further statements on concrete registries *)


Lemma timeouts_from_profile_witness :
  ∃ cfg,
    Env.build "slow" Env.with_timeouts = Ok cfg
    ∧ DialTimeout (Net cfg) = 10000000000
    ∧ ReadTimeout (Net cfg) = 30000000000.
Proof.
  eexists. split; [vm_compute; reflexivity|].
  apply (timeouts_from_profile (H := Env.cast) Env.ParseKafkaVersion
           Env.NewConfig Env.ReadFile Env.NewCertPool Env.AppendCertsFromPEM
           Env.LoadX509KeyPair "slow" Env.with_timeouts).
  vm_compute. reflexivity.
Defined.

Lemma seconds_duration_exact_witness :
  wrap64 (30 * Second) = 30 * Second.
Proof. apply (proj1 (seconds_duration_exact 30)). lia. Defined.

Lemma tls_untouched_without_key_witness :
  ∃ cfg,
    Env.build "test" Env.sample = Ok cfg
    ∧ TLS (Net cfg) = {| TLS_Enable := false; TLS_Config := None |}.
Proof.
  eexists. split; [vm_compute; reflexivity|].
  apply (tls_untouched_without_key (H := Env.cast) Env.ParseKafkaVersion
           Env.NewConfig Env.ReadFile Env.NewCertPool Env.AppendCertsFromPEM
           Env.LoadX509KeyPair "test" Env.sample).
  - vm_compute. reflexivity.
  - vm_compute. reflexivity.
Defined.

Lemma tls_with_ca_bundle_witness :
  ∃ cfg caCert tlsConfig,
    Env.build "secure" Env.tls_with_ca = Ok cfg
    ∧ Env.ReadFile "/etc/burrow/ca.pem" = inl caCert
    ∧ TLS (Net cfg) = {| TLS_Enable := true; TLS_Config := Some tlsConfig |}
    ∧ RootCAs tlsConfig = Some [caCert]
    ∧ InsecureSkipVerify tlsConfig = false.
Proof.
  destruct (Env.build "secure" Env.tls_with_ca) as [cfg|] eqn:Hbuild;
    [|vm_compute in Hbuild; discriminate].
  destruct (tls_with_ca_bundle (H := Env.cast) Env.ParseKafkaVersion
              Env.NewConfig Env.ReadFile Env.NewCertPool
              Env.AppendCertsFromPEM Env.LoadX509KeyPair
              "secure" Env.tls_with_ca cfg)
    as (caCert & k & Hr & Ht & Hp & Hn & _).
  - vm_compute. reflexivity.
  - vm_compute. discriminate.
  - exact Hbuild.
  - exists cfg, caCert, k.
    split_and!; [reflexivity | exact Hr | exact Ht | exact Hp | exact Hn].
Defined.

Lemma ca_bundle_unreadable_witness :
  Env.build "secure" Env.tls_missing_ca =
    Panic ("cannot read TLS CA file: "
           +:+ "open /etc/burrow/missing.pem: no such file or directory").
Proof.
  apply (ca_bundle_unreadable (H := Env.cast) Env.ParseKafkaVersion
           Env.NewConfig Env.ReadFile Env.NewCertPool Env.AppendCertsFromPEM
           Env.LoadX509KeyPair "secure" Env.tls_missing_ca).
  - vm_compute. reflexivity.
  - vm_compute. reflexivity.
  - vm_compute. reflexivity.
  - vm_compute. discriminate.
  - vm_compute. reflexivity.
Defined.

Lemma sasl_settings_witness :
  ∃ cfg,
    Env.build "msk-iam" (Env.msk "SCRAM-SHA-512") = Ok cfg
    ∧ SASL (Net cfg) =
        {| SASL_Enable := true; Mechanism := "OAUTHBEARER";
           SCRAMClientGeneratorFunc := Some {| HashGeneratorFcn := SHA512 |};
           Handshake := true; User := "burrow"; Password := "secret";
           TokenProvider :=
             Some {| region := "us-west-1"; roleArn := "";
                     profile := "" |} |}.
Proof.
  eexists. split; [vm_compute; reflexivity|].
  apply (sasl_settings (H := Env.cast) Env.ParseKafkaVersion
           Env.NewConfig Env.ReadFile Env.NewCertPool Env.AppendCertsFromPEM
           Env.LoadX509KeyPair "msk-iam" (Env.msk "SCRAM-SHA-512")).
  - vm_compute. reflexivity.
  - vm_compute. reflexivity.
Defined.

Lemma sasl_settings_without_key_witness :
  ∃ cfg,
    Env.build "msk-iam" Env.msk_no_sasl = Ok cfg
    ∧ SASL (Net cfg) =
        {| SASL_Enable := true; Mechanism := "OAUTHBEARER";
           SCRAMClientGeneratorFunc := None;
           Handshake := true; User := ""; Password := "";
           TokenProvider :=
             Some {| region := "us-west-1";
                     roleArn := "arn:aws:iam::123456789012:role/burrow";
                     profile := "" |} |}.
Proof.
  eexists. split; [vm_compute; reflexivity|].
  apply (sasl_settings_without_key (H := Env.cast) Env.ParseKafkaVersion
           Env.NewConfig Env.ReadFile Env.NewCertPool Env.AppendCertsFromPEM
           Env.LoadX509KeyPair "msk-iam" Env.msk_no_sasl).
  - vm_compute. reflexivity.
  - vm_compute. reflexivity.
Defined.

Lemma iam_panic_messages_witness :
  Env.build "msk-iam" Env.iam_only = Panic "iam.eks: region is required"
  ∧ Env.build "msk-iam" Env.iam_no_tls
    = Panic "client-profile msk-iam uses iam.eks but has no tls profile".
Proof.
  split.
  - apply (iam_panic_messages (H := Env.cast) Env.ParseKafkaVersion
             Env.NewConfig Env.ReadFile Env.NewCertPool Env.AppendCertsFromPEM
             Env.LoadX509KeyPair "msk-iam" Env.iam_only).
    + vm_compute. reflexivity.
    + vm_compute. reflexivity.
    + vm_compute. reflexivity.
    + vm_compute. discriminate.
    + vm_compute. reflexivity.
  - apply (iam_panic_messages (H := Env.cast) Env.ParseKafkaVersion
             Env.NewConfig Env.ReadFile Env.NewCertPool Env.AppendCertsFromPEM
             Env.LoadX509KeyPair "msk-iam" Env.iam_no_tls).
    + vm_compute. reflexivity.
    + vm_compute. reflexivity.
    + vm_compute. reflexivity.
    + vm_compute. discriminate.
    + vm_compute. discriminate.
    + vm_compute. reflexivity.
    + vm_compute. reflexivity.
Defined.

Lemma unknown_version_message_witness :
  Env.build "msk-iam" Env.msk_bad_version
  = Panic "Unknown Kafka Version: bogus".
Proof.
  apply (unknown_version_message (H := Env.cast) Env.ParseKafkaVersion
           Env.NewConfig Env.ReadFile Env.NewCertPool Env.AppendCertsFromPEM
           Env.LoadX509KeyPair "msk-iam" Env.msk_bad_version).
  - vm_compute. reflexivity.
  - eexists. vm_compute. reflexivity.
  - vm_compute. reflexivity.
Defined.

Lemma fallback_versions_supported_witness :
  IsAtLeast V0_9_0_0 V0_8_2_0 = true ∧ IsAtLeast V0_11_0_0 V0_9_0_0 = true.
Proof.
  apply (fallback_versions_supported Env.ParseKafkaVersion "0.9").
  - eexists. vm_compute. reflexivity.
  - vm_compute. reflexivity.
Defined.

